(** * The AI relay: a shallow embedding of
      [supabase/functions/chat-with-ai/index.ts]

    The edge function is one request handler.  It answers the CORS
    preflight, reads the JSON body, checks [message], reads the API key
    from the environment, posts the message to the generation endpoint
    and shapes the reply.  A single [try]/[catch] turns every exception
    into one fixed 500 reply.

    The embedding keeps the JavaScript values the handler touches
    (the results of [req.json()] and of [geminiResponse.json()]), the
    operations the handler applies to them (truthiness, property access,
    [JSON.stringify], [new Response]) and its effects (the outbound
    [fetch], the console), threaded through a small state-and-exception
    monad.

    Conventions.
    - A JavaScript string is a Rocq [string]; each character stands for
      one code unit, so the model covers the strings whose code units are
      below 256.
    - A JavaScript number is an IEEE 754 binary64 value, given as a
      [spec_float].
    - The results of the runtime's own parsers ([req.json()],
      [geminiResponse.json()]) are inputs of the model: either the parsed
      value or the exception the parser raised. *)

From Stdlib Require Import ZArith String Ascii List Bool Lia.
From Stdlib Require Import Floats.SpecFloat DecimalString.
From stdpp Require Import gmap strings.

Local Open Scope Z_scope.

(** ** Strings *)

Module Str.

(** The double quote character, and a string made of it. *)
Definition dquote_char : ascii := "034"%char.
Definition dq : string := String dquote_char EmptyString.

(** [quoted s] is [s] between double quotes, with no escaping. *)
Definition quoted (s : string) : string := dq +:+ s +:+ dq.

(** ASCII lower-casing of one code unit, as the Fetch standard's
    byte-lowercase does. *)
Definition lower_char (c : ascii) : ascii :=
  let n := N_of_ascii c in
  if ((65 <=? n) && (n <=? 90))%N then ascii_of_N (n + 32) else c.

Fixpoint lower (s : string) : string :=
  match s with
  | EmptyString => EmptyString
  | String c s' => String (lower_char c) (lower s')
  end.

(** [join sep l]: the elements of [l] with [sep] between them
    ([Array.prototype.join]). *)
Fixpoint join (sep : string) (l : list string) : string :=
  match l with
  | [] => EmptyString
  | [x] => x
  | x :: rest => x +:+ sep +:+ join sep rest
  end.

(** [repeat_char c n]: [n] copies of [c]. *)
Fixpoint repeat_char (c : ascii) (n : nat) : string :=
  match n with
  | O => EmptyString
  | S n' => String c (repeat_char c n')
  end.

(** [take n s] and [drop n s]: the first [n] characters and the rest. *)
Fixpoint take (n : nat) (s : string) : string :=
  match n, s with
  | S n', String c s' => String c (take n' s')
  | _, _ => EmptyString
  end.

Fixpoint drop (n : nat) (s : string) : string :=
  match n, s with
  | S n', String _ s' => drop n' s'
  | _, _ => s
  end.

(** [is_prefix p s]: [s] starts with [p]. *)
Fixpoint is_prefix (p s : string) : bool :=
  match p, s with
  | EmptyString, _ => true
  | String a p', String b s' => Ascii.eqb a b && is_prefix p' s'
  | String _ _, EmptyString => false
  end.

(** [includes s sub]: [String.prototype.includes]. *)
Fixpoint includes (s sub : string) : bool :=
  is_prefix sub s ||
  match s with
  | EmptyString => false
  | String _ s' => includes s' sub
  end.

(** Decimal numeral of a natural number or of an integer. *)
Definition of_N (n : N) : string := NilZero.string_of_uint (N.to_uint n).

Definition of_Z (z : Z) : string :=
  if z <? 0 then "-" +:+ of_N (Z.to_N (- z)) else of_N (Z.to_N z).

(** White space as [String.prototype.trim] sees it, for code units
    below 256: TAB, LF, VT, FF, CR, space and the no-break space. *)
Definition is_space (c : ascii) : bool :=
  let n := N_of_ascii c in
  (((9 <=? n) && (n <=? 13)) || (n =? 32) || (n =? 160))%N.

Fixpoint all_space (s : string) : bool :=
  match s with
  | EmptyString => true
  | String c s' => is_space c && all_space s'
  end.

End Str.

(** ** JavaScript values *)

#[local] Set Warnings "-register-all".

(** The values [JSON.parse] builds, plus [undefined], which property
    access produces.  An object is its list of own properties in
    enumeration order; keys are distinct, as in any JavaScript object. *)
Inductive JSValue : Type :=
| JUndefined
| JNull
| JBool (b : bool)
| JNumber (x : spec_float)
| JString (s : string)
| JArray (items : list JSValue)
| JObject (props : list (string * JSValue)).

(** An exception value: the [name] and [message] of an [Error]. *)
Record JSError : Type := mkError { err_name : string; err_message : string }.

Definition TypeError (msg : string) : JSError := mkError "TypeError" msg.
Definition SyntaxError (msg : string) : JSError := mkError "SyntaxError" msg.
Definition Error (msg : string) : JSError := mkError "Error" msg.

(** The outcome of an operation that may throw. *)
Definition Outcome (A : Type) : Type := (JSError + A)%type.

(** [ToBoolean]: the test behind [!x], [x && y] and [if (x)]. *)
Definition truthy (v : JSValue) : bool :=
  match v with
  | JUndefined | JNull => false
  | JBool b => b
  | JNumber (S754_zero _) | JNumber S754_nan => false
  | JNumber _ => true
  | JString EmptyString => false
  | JString _ => true
  | JArray _ | JObject _ => true
  end.

(** Own-property lookup in a property list. *)
Fixpoint lookup_prop (key : string) (props : list (string * JSValue)) : option JSValue :=
  match props with
  | [] => None
  | (k, v) :: rest => if String.eqb k key then Some v else lookup_prop key rest
  end.

(** A short rendering of a value for an exception message. *)
Definition kind_of (v : JSValue) : string :=
  match v with
  | JNull => "null"
  | _ => "undefined"
  end.

(** [v.key] for a key that no built-in prototype defines, which is the
    case of every name the handler reads ([message], [candidates],
    [content], [parts], [text]).  Reading a property of [undefined] or
    [null] throws a [TypeError]; an object gives its own property or
    [undefined]; every other value gives [undefined].  The text of the
    exception is the engine's; the handlers only log it. *)
Definition get_member (v : JSValue) (key : string) : Outcome JSValue :=
  match v with
  | JUndefined | JNull =>
      inl (TypeError ("Cannot read properties of " +:+ kind_of v +:+
                      " (reading '" +:+ key +:+ "')"))
  | JObject props => inr (default JUndefined (lookup_prop key props))
  | _ => inr JUndefined
  end.

(** [v[i]] for an index [i]: an array gives its [i]-th element, a string
    its [i]-th code unit as a string, an object its property named by
    the decimal numeral of [i]; out of range gives [undefined]. *)
Definition get_index (v : JSValue) (i : nat) : Outcome JSValue :=
  match v with
  | JUndefined | JNull =>
      inl (TypeError ("Cannot read properties of " +:+ kind_of v +:+
                      " (reading '" +:+ Str.of_N (N.of_nat i) +:+ "')"))
  | JArray items => inr (nth i items JUndefined)
  | JString s =>
      inr (match String.get i s with
           | Some c => JString (String c EmptyString)
           | None => JUndefined
           end)
  | JObject props => inr (default JUndefined (lookup_prop (Str.of_N (N.of_nat i)) props))
  | _ => inr JUndefined
  end.

(** [const { key } = v], for [v] the value of an awaited call: the
    value of [v.key], and for [undefined] or [null] the [TypeError] that
    the engine raises for a pattern. *)
Definition pattern_error (v : JSValue) (key : string) : JSError :=
  TypeError ("Cannot destructure property '" +:+ key +:+
             "' of '(intermediate value)' as it is " +:+ kind_of v +:+ ".").

Definition destructure (v : JSValue) (key : string) : Outcome JSValue :=
  match v with
  | JUndefined | JNull => inl (pattern_error v key)
  | _ => get_member v key
  end.

(** ** Numbers as text *)

(** [Number::toString] (radix 10) of the ECMAScript standard, on binary64
    values.  A finite non-zero value [m * 2^e] is printed from the
    shortest decimal numeral [s * 10^(n-k)], [s] of [k] digits, that
    rounds back to it; among several of that length, the closest one.
    The pair [m], [e] is that of a binary64 value: [m < 2^53],
    [-1074 <= e], and [2^52 <= m] unless [e = -1074]. *)
Module Number.

(** A non-negative rational, as numerator and positive denominator. *)
Record frac : Type := mkFrac { num : Z; den : Z }.

(** [scale10 q f] is [f * 10^q]. *)
Definition scale10 (q : Z) (f : frac) : frac :=
  if 0 <=? q then mkFrac (num f * 10 ^ q) (den f)
  else mkFrac (num f) (den f * 10 ^ (- q)).

Definition floor (f : frac) : Z := num f / den f.
Definition ceil (f : frac) : Z := - ((- num f) / den f).
Definition is_int (f : frac) : bool := num f mod den f =? 0.

(** The nearest integer, ties to the even one. *)
Definition round_even (f : frac) : Z :=
  let lo := floor f in
  let twice := 2 * (num f - lo * den f) in
  if twice <? den f then lo
  else if den f <? twice then lo + 1
  else if Z.even lo then lo else lo + 1.

(** The value [m * 2^e] and the ends of the interval of reals that
    round to it, all three over the denominator [2^(2-e)] (or 1). *)
Definition pow2_num (e : Z) : Z := if 2 <=? e then 2 ^ (e - 2) else 1.
Definition pow2_den (e : Z) : Z := if 2 <=? e then 1 else 2 ^ (2 - e).

Definition value (m : positive) (e : Z) : frac :=
  mkFrac (4 * Z.pos m * pow2_num e) (pow2_den e).

(** Below a power of two the next value down is half as far away
    (except at the bottom of the range, where the spacing is fixed). *)
Definition low_end (m : positive) (e : Z) : frac :=
  let gap := if (Z.pos m =? 2 ^ 52) && (-1074 <? e) then 1 else 2 in
  mkFrac ((4 * Z.pos m - gap) * pow2_num e) (pow2_den e).

Definition high_end (m : positive) (e : Z) : frac :=
  mkFrac ((4 * Z.pos m + 2) * pow2_num e) (pow2_den e).

(** Round-to-nearest-even keeps the ends of the interval exactly when
    the significand is even. *)
Definition ends_included (m : positive) : bool := Z.even (Z.pos m).

(** [below_pow10 f n]: [f < 10^n]. *)
Definition below_pow10 (f : frac) (n : Z) : bool :=
  let g := scale10 (- n) f in num g <? den g.

(** The least [n], from [start] on, with [f < 10^n]. *)
Fixpoint magnitude (fuel : nat) (start : Z) (f : frac) : Z :=
  match fuel with
  | O => start
  | S fuel' => if below_pow10 f start then start
               else magnitude fuel' (start + 1) f
  end.

(** The [k]-digit integers [s] with [s * 10^(n-k)] inside the
    interval: the smallest and the largest, if there is one. *)
Definition digit_range (m : positive) (e : Z) (k n : Z) : option (Z * Z) :=
  let lo := scale10 (k - n) (low_end m e) in
  let hi := scale10 (k - n) (high_end m e) in
  let incl := ends_included m in
  let s_lo := if is_int lo && negb incl then ceil lo + 1 else ceil lo in
  let s_hi := if is_int hi && negb incl then floor hi - 1 else floor hi in
  let s_lo := Z.max s_lo (10 ^ (k - 1)) in
  let s_hi := Z.min s_hi (10 ^ k - 1) in
  if s_lo <=? s_hi then Some (s_lo, s_hi) else None.

(** The [k]-digit [s] closest to the value, at decimal exponent [n]. *)
Definition closest (m : positive) (e : Z) (k n : Z) : option Z :=
  match digit_range m e k n with
  | Some (s_lo, s_hi) =>
      Some (Z.max s_lo (Z.min s_hi (round_even (scale10 (k - n) (value m e)))))
  | None => None
  end.

(** How far the numeral [s * 10^(n-k)] is from the value, and the
    comparison of two such distances. *)
Definition distance (m : positive) (e : Z) (s k n : Z) : frac :=
  let c := scale10 (n - k) (mkFrac s 1) in
  let v := value m e in
  mkFrac (Z.abs (num c * den v - num v * den c)) (den c * den v).

Definition less (a b : frac) : bool := num a * den b <? num b * den a.

(** The shortest numeral: try [k = 1, 2, ...]; for each, the decimal
    exponent is the magnitude [n0] of the value or, for a numeral at or
    above the next power of ten, [n0 + 1]; when both give a numeral of
    [k] digits, the one closer to the value is taken. *)
Fixpoint shortest (fuel : nat) (m : positive) (e : Z) (k n0 : Z) : Z * Z * Z :=
  match fuel with
  | O => (round_even (scale10 (k - n0) (value m e)), k, n0)
  | S fuel' =>
      match closest m e k n0, closest m e k (n0 + 1) with
      | Some s, None => (s, k, n0)
      | None, Some s => (s, k, n0 + 1)
      | Some s, Some s' =>
          if less (distance m e s' k (n0 + 1)) (distance m e s k n0)
          then (s', k, n0 + 1) else (s, k, n0)
      | None, None => shortest fuel' m e (k + 1) n0
      end
  end.

(** The digits [s], their count [k] and the decimal exponent [n] of
    the standard, for the positive value [m * 2^e]. *)
Definition decimal (m : positive) (e : Z) : Z * Z * Z :=
  shortest 16 m e 1 (magnitude 800 (-400) (value m e)).

Definition zeros (n : Z) : string := Str.repeat_char "0"%char (Z.to_nat n).

(** The layout rules of [Number::toString]. *)
Definition layout (s k n : Z) : string :=
  let digits := Str.of_Z s in
  if (k <=? n) && (n <=? 21) then digits +:+ zeros (n - k)
  else if (0 <? n) && (n <=? 21) then
    Str.take (Z.to_nat n) digits +:+ "." +:+ Str.drop (Z.to_nat n) digits
  else if (-6 <? n) && (n <=? 0) then "0." +:+ zeros (- n) +:+ digits
  else
    let ex := n - 1 in
    let sign := if ex <? 0 then "-" else "+" in
    let mantissa := if k =? 1 then digits
                    else Str.take 1 digits +:+ "." +:+ Str.drop 1 digits in
    mantissa +:+ "e" +:+ sign +:+ Str.of_Z (Z.abs ex).

Definition toString (x : spec_float) : string :=
  match x with
  | S754_nan => "NaN"
  | S754_zero _ => "0"
  | S754_infinity s => if s then "-Infinity" else "Infinity"
  | S754_finite sign m e =>
      let '(s, k, n) := decimal m e in
      (if sign then "-" else EmptyString) +:+ layout s k n
  end.

Definition is_finite (x : spec_float) : bool :=
  match x with
  | S754_zero _ | S754_finite _ _ _ => true
  | _ => false
  end.

End Number.

(** ** [JSON.stringify] *)

Module JSON.

Definition hex_digit (n : N) : ascii :=
  if (n <? 10)%N then ascii_of_N (48 + n) else ascii_of_N (87 + n).

(** One code unit inside a JSON string ([QuoteJSONString]): the quote
    and the backslash are escaped, control characters have a short
    escape or the form [\u00xx], everything else stands for itself. *)
Definition escape_char (c : ascii) : string :=
  let n := N_of_ascii c in
  if (n =? 34)%N then "\" +:+ Str.dq
  else if (n =? 92)%N then "\\"
  else if (n =? 8)%N then "\b"
  else if (n =? 9)%N then "\t"
  else if (n =? 10)%N then "\n"
  else if (n =? 12)%N then "\f"
  else if (n =? 13)%N then "\r"
  else if (n <? 32)%N then
    "\u00" +:+ String (hex_digit (n / 16)) (String (hex_digit (n mod 16)) EmptyString)
  else String c EmptyString.

Fixpoint escape (s : string) : string :=
  match s with
  | EmptyString => EmptyString
  | String c s' => escape_char c +:+ escape s'
  end.

Definition quote (s : string) : string := Str.quoted (escape s).

(** A number: its decimal text when finite, [null] otherwise. *)
Definition number (x : spec_float) : string :=
  if Number.is_finite x then Number.toString x else "null".

(** [SerializeJSONProperty]: [None] stands for [undefined], the result
    for a value that has no JSON text.  In an array such an element is
    written [null]; in an object its property is left out. *)
Fixpoint serialize (v : JSValue) : option string :=
  match v with
  | JUndefined => None
  | JNull => Some "null"
  | JBool b => Some (if b then "true" else "false")
  | JNumber x => Some (number x)
  | JString s => Some (quote s)
  | JArray items =>
      let fix elements (l : list JSValue) : list string :=
        match l with
        | [] => []
        | x :: rest => default "null" (serialize x) :: elements rest
        end in
      Some ("[" +:+ Str.join "," (elements items) +:+ "]")
  | JObject props =>
      let fix members (l : list (string * JSValue)) : list string :=
        match l with
        | [] => []
        | (k, x) :: rest =>
            match serialize x with
            | Some text => (quote k +:+ ":" +:+ text) :: members rest
            | None => members rest
            end
        end in
      Some ("{" +:+ Str.join "," (members props) +:+ "}")
  end.

(** [JSON.stringify(v)], with no replacer and no indentation. *)
Definition stringify (v : JSValue) : option string := serialize v.

End JSON.

(** ** Headers and responses *)

(** An object literal whose values are strings, such as [corsHeaders]:
    its properties in order. *)
Definition HeadersInit : Type := list (string * string).

(** [{ ...base, [key]: value }]: a fresh object with the properties of
    [base] and then [key]; a key that [base] already has keeps its place
    and takes the new value. *)
Fixpoint set_prop (key value : string) (base : HeadersInit) : HeadersInit :=
  match base with
  | [] => [(key, value)]
  | (k, v) :: rest =>
      if String.eqb k key then (k, value) :: rest
      else (k, v) :: set_prop key value rest
  end.

(** A [Headers] object: a map from lower-cased names to values. *)
Module Headers.

(** [append]: a repeated name joins the values with a comma. *)
Definition append (name value : string) (h : gmap string string) : gmap string string :=
  let key := Str.lower name in
  match h !! key with
  | Some old => <[key := old +:+ ", " +:+ value]> h
  | None => <[key := value]> h
  end.

(** [new Headers(init)]: the properties of [init], appended in order. *)
Definition create (init : HeadersInit) : gmap string string :=
  fold_left (fun h '(name, value) => append name value h) init ∅.

(** [headers.get(name)]; names are matched without regard to case. *)
Definition get (h : gmap string string) (name : string) : option string :=
  h !! Str.lower name.

Definition has (h : gmap string string) (name : string) : bool :=
  bool_decide (is_Some (get h name)).

End Headers.

(** The second argument of [new Response]. *)
Record ResponseInit : Type := mkInit {
  init_status : option Z;
  init_headers : HeadersInit
}.

(** What the caller of the handler receives. *)
Record Response : Type := mkResponse {
  status : Z;
  headers : gmap string string;
  body : string
}.

(** [new Response(body, init)].  The status defaults to 200.  A string
    body whose init names no content type gets the type of text, as the
    Fetch standard prescribes; with no body ([undefined]) the response
    is empty and no type is added. *)
Definition new_Response (body : option string) (init : ResponseInit) : Response :=
  let h := Headers.create (init_headers init) in
  {| status := default 200 (init_status init);
     headers := match body with
                | Some _ => if Headers.has h "Content-Type" then h
                            else Headers.append "Content-Type" "text/plain;charset=UTF-8" h
                | None => h
                end;
     body := default EmptyString body |}.

(** ** Effects *)

(** The arguments of [fetch(url, { method, headers, body })]. *)
Record FetchRequest : Type := mkFetch {
  fetch_url : string;
  fetch_method : string;
  fetch_headers : HeadersInit;
  fetch_body : option string
}.

(** The part of the upstream reply the handler reads: its status and
    what [geminiResponse.json()] gives. *)
Record UpstreamResponse : Type := mkUpstream {
  up_status : Z;
  up_json : Outcome JSValue
}.

(** [geminiResponse.ok]: the status is in the range 200-299. *)
Definition ok (r : UpstreamResponse) : bool :=
  (200 <=? up_status r) && (up_status r <=? 299).

(** What a call leaves behind, in order: console lines and outbound
    requests. *)
Inductive LogArg : Type :=
| LogText (s : string)
| LogValue (v : JSValue)
| LogError (e : JSError).

Inductive Event : Type :=
| ConsoleError (args : list LogArg)
| ConsoleLog (args : list LogArg)
| FetchCall (r : FetchRequest).

(** The surroundings of an invocation: the process environment, and the
    upstream service as a function from the request it is sent to its
    reply ([inl] when [fetch] rejects). *)
Record World : Type := mkWorld {
  env : gmap string string;
  upstream : FetchRequest -> Outcome UpstreamResponse
}.

(** The request as the handler sees it: [req.method] and the outcome of
    [req.json()], which throws on an absent or malformed body. *)
Record Request : Type := mkRequest {
  method : string;
  json : Outcome JSValue
}.

(** Pure code that may throw. *)
#[global] Instance Outcome_ret : MRet Outcome := fun A x => inr x.
#[global] Instance Outcome_bind : MBind Outcome := fun A B f o =>
  match o with
  | inl e => inl e
  | inr x => f x
  end.

(** Code that may throw and that adds to the trace of events. *)
Definition M (A : Type) : Type := list Event -> Outcome A * list Event.

#[global] Instance M_ret : MRet M := fun A x t => (inr x, t).
#[global] Instance M_bind : MBind M := fun A B f m t =>
  match m t with
  | (inl e, t') => (inl e, t')
  | (inr x, t') => f x t'
  end.

Definition throw {A : Type} (e : JSError) : M A := fun t => (inl e, t).

Definition lift {A : Type} (o : Outcome A) : M A := fun t => (o, t).

Definition emit (ev : Event) : M unit := fun t => (inr tt, t ++ [ev]).

(** [try { body } catch (error) { handle }]. *)
Definition try_catch {A : Type} (body : M A) (handle : JSError -> M A) : M A :=
  fun t =>
    match body t with
    | (inl e, t') => handle e t'
    | (inr x, t') => (inr x, t')
    end.

(** [Deno.env.get(name)]: the value, or [undefined].  The environment
    is read at each call. *)
Definition Deno_env_get (w : World) (name : string) : option string :=
  env w !! name.

(** [ToBoolean] and [ToString] of a value that is a string or
    [undefined]. *)
Definition truthy_string (s : option string) : bool :=
  match s with
  | Some (String _ _) => true
  | _ => false
  end.

Definition template (s : option string) : string := default "undefined" s.

(** [await fetch(...)]: the request goes out, the upstream replies. *)
Definition fetch (w : World) (r : FetchRequest) : M UpstreamResponse :=
  fun t => (upstream w r, t ++ [FetchCall r]).

(** ** The handler *)

Definition corsHeaders : HeadersInit :=
  [ ("Access-Control-Allow-Origin", "*");
    ("Access-Control-Allow-Headers",
     "authorization, x-client-info, apikey, content-type") ].

(** [{ ...corsHeaders, 'Content-Type': 'application/json' }] *)
Definition json_headers : HeadersInit :=
  set_prop "Content-Type" "application/json" corsHeaders.

Definition message_required : string := "Message is required".

Definition not_configured : string :=
  "I'm sorry, but the AI service is not properly configured. Please contact the administrator to set up the Gemini API key.".

Definition no_response : string :=
  "I'm sorry, I couldn't generate a response at this time.".

Definition try_again : string :=
  "I'm sorry, I encountered an error while processing your message. Please try again.".

Definition endpoint : string :=
  "https://generativelanguage.googleapis.com/v1beta/models/gemini-pro:generateContent?key=".

(** [{ contents: [{ parts: [{ text: message }] }] }] *)
Definition envelope (message : JSValue) : JSValue :=
  JObject [("contents",
            JArray [JObject [("parts",
                              JArray [JObject [("text", message)]])]])].

(** [geminiData.candidates[0]] and [geminiData.candidates[0].content],
    evaluated from [geminiData] each time they occur. *)
Definition first_candidate (geminiData : JSValue) : Outcome JSValue :=
  candidates ← get_member geminiData "candidates";
  get_index candidates 0.

Definition first_content (geminiData : JSValue) : Outcome JSValue :=
  candidate ← first_candidate geminiData;
  get_member candidate "content".

(** The condition
    [geminiData.candidates && geminiData.candidates[0] &&
     geminiData.candidates[0].content]:
    the first falsy operand, or the last one. *)
Definition has_content (geminiData : JSValue) : Outcome JSValue :=
  candidates ← get_member geminiData "candidates";
  if truthy candidates then
    candidate ← first_candidate geminiData;
    if truthy candidate then first_content geminiData
    else mret candidate
  else mret candidates.

(** Lines 64-68: [response] starts as the fallback sentence and, under
    the condition, becomes [geminiData.candidates[0].content.parts[0].text]. *)
Definition extract_response (geminiData : JSValue) : Outcome JSValue :=
  condition ← has_content geminiData;
  if truthy condition then
    content ← first_content geminiData;
    parts ← get_member content "parts";
    part ← get_index parts 0;
    get_member part "text"
  else mret (JString no_response).

(** The body of the [try] block, after the preflight test. *)
Definition relay (w : World) (req : Request) : M Response :=
  parsed ← lift (json req);
  message ← lift (destructure parsed "message");
  if negb (truthy message) then
    mret (new_Response
            (JSON.stringify (JObject [("error", JString message_required)]))
            (mkInit (Some 400) json_headers))
  else
    let geminiApiKey := Deno_env_get w "GEMINI_API_KEY" in
    if negb (truthy_string geminiApiKey) then
      emit (ConsoleError [LogText "GEMINI_API_KEY not found in environment variables"]);;
      mret (new_Response
              (JSON.stringify (JObject [("response", JString not_configured)]))
              (mkInit None json_headers))
    else
      geminiResponse ← fetch w
        (mkFetch (endpoint +:+ template geminiApiKey)
                 "POST"
                 [("Content-Type", "application/json")]
                 (JSON.stringify (envelope message)));
      if negb (ok geminiResponse) then
        throw (Error ("Gemini API error: " +:+ Str.of_Z (up_status geminiResponse)))
      else
        geminiData ← lift (up_json geminiResponse);
        emit (ConsoleLog [LogText "Gemini API response:"; LogValue geminiData]);;
        response ← lift (extract_response geminiData);
        mret (new_Response
                (JSON.stringify (JObject [("response", response)]))
                (mkInit None json_headers)).

(** The [catch] block. *)
Definition on_error (error : JSError) : M Response :=
  emit (ConsoleError [LogText "Error in chat-with-ai function:"; LogError error]);;
  mret (new_Response
          (JSON.stringify (JObject [("response", JString try_again)]))
          (mkInit (Some 500) json_headers)).

(** The function given to [serve]. *)
Definition handler (w : World) (req : Request) : M Response :=
  if String.eqb (method req) "OPTIONS" then
    mret (new_Response (Some "ok") (mkInit None corsHeaders))
  else
    try_catch (relay w req) on_error.

(** ** The request as it arrives *)

(** A request on the wire: its method, and what its body gives when
    read as JSON ([inl] for an absent or malformed body). *)
Record Arrival : Type := mkArrival {
  wire_method : string;
  wire_json : Outcome JSValue
}.

(** The runtime hands the handler no body for GET and HEAD, whatever
    was sent. *)
Definition exposes_body (m : string) : bool :=
  negb (String.eqb m "GET" || String.eqb m "HEAD").

(** What [req.json()] throws on a request with no body. *)
Definition no_body : JSError := SyntaxError "Unexpected end of JSON input".

(** The [Request] that the runtime builds for the handler. *)
Definition incoming (a : Arrival) : Request :=
  mkRequest (wire_method a)
            (if exposes_body (wire_method a) then wire_json a else inl no_body).

(** ** The handler and the state of its module *)

(** The one thing of the module that outlives an invocation is the
    object bound to [corsHeaders]: the binding is [const], the
    properties of the object are not.  Here the handler is given once
    more with that object in a store: each occurrence of [corsHeaders]
    reads the object as it is at that moment, and a store can be written
    to, so that a handler that changed the object would show. *)
Module Shared.

Record Store : Type := mkStore { cors : HeadersInit }.

(** The store once the module is loaded (lines 4-7). *)
Definition loaded : Store := mkStore corsHeaders.

(** Code that may throw, that adds to the trace of events and that
    reads and writes the store. *)
Definition S (A : Type) : Type :=
  Store * list Event -> Outcome A * (Store * list Event).

#[global] Instance S_ret : MRet S := fun A x st => (inr x, st).
#[global] Instance S_bind : MBind S := fun A B f m st =>
  match m st with
  | (inl e, st') => (inl e, st')
  | (inr x, st') => f x st'
  end.

Definition throw {A : Type} (e : JSError) : S A := fun st => (inl e, st).

Definition lift {A : Type} (o : Outcome A) : S A := fun st => (o, st).

Definition emit (ev : Event) : S unit :=
  fun st => (inr tt, (fst st, snd st ++ [ev])).

Definition try_catch {A : Type} (body : S A) (handle : JSError -> S A) : S A :=
  fun st =>
    match body st with
    | (inl e, st') => handle e st'
    | (inr x, st') => (inr x, st')
    end.

Definition fetch (w : World) (r : FetchRequest) : S UpstreamResponse :=
  fun st => (upstream w r, (fst st, snd st ++ [FetchCall r])).

(** An occurrence of [corsHeaders]: the properties of the object now. *)
Definition read : S HeadersInit := fun st => (inr (cors (fst st)), st).

(** [corsHeaders[key] = value]. *)
Definition assign (key value : string) : S unit :=
  fun st => (inr tt, (mkStore (set_prop key value (cors (fst st))), snd st)).

(** [{ ...corsHeaders, 'Content-Type': 'application/json' }] *)
Definition json_init (status : option Z) : S ResponseInit :=
  shared ← read;
  mret (mkInit status (set_prop "Content-Type" "application/json" shared)).

(** The body of the [try] block. *)
Definition relay (w : World) (req : Request) : S Response :=
  parsed ← lift (json req);
  message ← lift (destructure parsed "message");
  if negb (truthy message) then
    init ← json_init (Some 400);
    mret (new_Response
            (JSON.stringify (JObject [("error", JString message_required)])) init)
  else
    let geminiApiKey := Deno_env_get w "GEMINI_API_KEY" in
    if negb (truthy_string geminiApiKey) then
      emit (ConsoleError [LogText "GEMINI_API_KEY not found in environment variables"]);;
      init ← json_init None;
      mret (new_Response
              (JSON.stringify (JObject [("response", JString not_configured)])) init)
    else
      geminiResponse ← fetch w
        (mkFetch (endpoint +:+ template geminiApiKey)
                 "POST"
                 [("Content-Type", "application/json")]
                 (JSON.stringify (envelope message)));
      if negb (ok geminiResponse) then
        throw (Error ("Gemini API error: " +:+ Str.of_Z (up_status geminiResponse)))
      else
        geminiData ← lift (up_json geminiResponse);
        emit (ConsoleLog [LogText "Gemini API response:"; LogValue geminiData]);;
        response ← lift (extract_response geminiData);
        init ← json_init None;
        mret (new_Response (JSON.stringify (JObject [("response", response)])) init).

(** The [catch] block. *)
Definition on_error (error : JSError) : S Response :=
  emit (ConsoleError [LogText "Error in chat-with-ai function:"; LogError error]);;
  init ← json_init (Some 500);
  mret (new_Response (JSON.stringify (JObject [("response", JString try_again)])) init).

(** The function given to [serve]. *)
Definition handler (w : World) (req : Request) : S Response :=
  if String.eqb (method req) "OPTIONS" then
    shared ← read;
    mret (new_Response (Some "ok") (mkInit None shared))
  else
    try_catch (relay w req) on_error.

(** The server: one invocation of the handler per request, one after
    the other, on the same store and the same trace. *)
Fixpoint serve (w : World) (reqs : list Request) (st : Store * list Event)
  : list (Outcome Response) * (Store * list Event) :=
  match reqs with
  | [] => ([], st)
  | req :: rest =>
      let '(r, st') := handler w req st in
      let '(rs, st'') := serve w rest st' in
      (r :: rs, st'')
  end.

(** The replies to a list of requests, and the store left behind. *)
Definition replies (w : World) (reqs : list Request) (st : Store * list Event)
  : list (Outcome Response) :=
  fst (serve w reqs st).

Definition store_after (w : World) (reqs : list Request) (st : Store * list Event)
  : Store :=
  fst (snd (serve w reqs st)).

(** The reply to one request served on the store [m]. *)
Definition reply_on (w : World) (req : Request) (m : Store) : Outcome Response :=
  fst (handler w req (m, [])).

End Shared.

(** ** What a run leaves to observe *)

(** The outbound requests in a trace. *)
Fixpoint fetch_calls (t : list Event) : list FetchRequest :=
  match t with
  | [] => []
  | FetchCall r :: rest => r :: fetch_calls rest
  | _ :: rest => fetch_calls rest
  end.

(** The header map of every JSON reply, and of the preflight reply. *)
Definition json_header_map : gmap string string :=
  <["content-type" := "application/json"]>
    (<["access-control-allow-headers" :=
         "authorization, x-client-info, apikey, content-type"]>
       (<["access-control-allow-origin" := "*"]> ∅)).

Definition text_header_map : gmap string string :=
  <["content-type" := "text/plain;charset=UTF-8"]>
    (<["access-control-allow-headers" :=
         "authorization, x-client-info, apikey, content-type"]>
       (<["access-control-allow-origin" := "*"]> ∅)).

(** The JSON text [{"key":"text"}] for a [text] that needs no escape. *)
Definition json_object1 (key text : string) : string :=
  "{" +:+ Str.quoted key +:+ ":" +:+ Str.quoted text +:+ "}".

(** The replies of the table of the HTTP surface. *)
Definition preflight_reply : Response :=
  mkResponse 200 text_header_map "ok".

Definition json_reply (code : Z) (text : string) : Response :=
  mkResponse code json_header_map text.

Definition bad_request_reply : Response :=
  json_reply 400 (json_object1 "error" message_required).

Definition not_configured_reply : Response :=
  json_reply 200 (json_object1 "response" not_configured).

Definition fallback_reply : Response :=
  json_reply 200 (json_object1 "response" no_response).

Definition error_reply : Response :=
  json_reply 500 (json_object1 "response" try_again).

(** The request the handler sends upstream for a given key and message. *)
Definition upstream_request (key : option string) (message : JSValue) : FetchRequest :=
  mkFetch (endpoint +:+ template key) "POST"
          [("Content-Type", "application/json")]
          (JSON.stringify (envelope message)).

(** The run of the handler on a request: its reply and the trace. *)
Definition reply (w : World) (req : Request) (t : list Event) : Outcome Response :=
  fst (handler w req t).

Definition trace_after (w : World) (req : Request) (t : list Event) : list Event :=
  snd (handler w req t).

(** ** The conditions the specification names *)

(** A message that is omitted, null, or an empty or whitespace-only
    string ([message.trim() === '']). *)
Definition blank_message (m : JSValue) : bool :=
  match m with
  | JUndefined | JNull => true
  | JString s => Str.all_space s
  | _ => false
  end.

(** A message that is omitted, null or the empty string. *)
Definition empty_message (m : JSValue) : bool :=
  match m with
  | JUndefined | JNull | JString EmptyString => true
  | _ => false
  end.

(** The text at [candidates[0].content.parts[0].text] of a payload of
    the documented shape
    [{"candidates":[{"content":{"parts":[{"text": ...}]}}]}]. *)
Definition candidate_text (data : JSValue) : option string :=
  match data with
  | JObject props =>
      match lookup_prop "candidates" props with
      | Some (JArray (JObject candidate :: _)) =>
          match lookup_prop "content" candidate with
          | Some (JObject content) =>
              match lookup_prop "parts" content with
              | Some (JArray (JObject part :: _)) =>
                  match lookup_prop "text" part with
                  | Some (JString text) => Some text
                  | _ => None
                  end
              | _ => None
              end
          | _ => None
          end
      | _ => None
      end
  | _ => None
  end.

(** A payload in which [candidates], [candidates[0]] or
    [candidates[0].content] is absent or otherwise falsy. *)
Inductive no_content (data : JSValue) : Prop :=
| no_candidates (c : JSValue) :
    get_member data "candidates" = inr c -> truthy c = false ->
    no_content data
| no_first_candidate (c c0 : JSValue) :
    get_member data "candidates" = inr c -> truthy c = true ->
    get_index c 0 = inr c0 -> truthy c0 = false ->
    no_content data
| no_candidate_content (c c0 x : JSValue) :
    get_member data "candidates" = inr c -> truthy c = true ->
    get_index c 0 = inr c0 -> truthy c0 = true ->
    get_member c0 "content" = inr x -> truthy x = false ->
    no_content data.

(** A request that gets past the checks of the [try] block: the body
    parses, the message is truthy and the key is configured. *)
Record reaches_upstream (w : World) (req : Request) (message : JSValue) : Prop := {
  ru_parsed : exists parsed, json req = inr parsed /\
                             get_member parsed "message" = inr message;
  ru_message : truthy message = true;
  ru_key : truthy_string (Deno_env_get w "GEMINI_API_KEY") = true
}.

(** The failures that throw inside the [try] block, with the exception
    each one raises. *)
Inductive failure (w : World) (req : Request) : JSError -> Prop :=
| body_parsing (e : JSError) :
    json req = inl e -> failure w req e
| body_destructuring (parsed : JSValue) (e : JSError) :
    json req = inr parsed -> destructure parsed "message" = inl e ->
    failure w req e
| network_call (message : JSValue) (e : JSError) :
    reaches_upstream w req message ->
    upstream w (upstream_request (Deno_env_get w "GEMINI_API_KEY") message) = inl e ->
    failure w req e
| upstream_status (message : JSValue) (r : UpstreamResponse) :
    reaches_upstream w req message ->
    upstream w (upstream_request (Deno_env_get w "GEMINI_API_KEY") message) = inr r ->
    ok r = false ->
    failure w req (Error ("Gemini API error: " +:+ Str.of_Z (up_status r)))
| upstream_parsing (message : JSValue) (r : UpstreamResponse) (e : JSError) :
    reaches_upstream w req message ->
    upstream w (upstream_request (Deno_env_get w "GEMINI_API_KEY") message) = inr r ->
    ok r = true -> up_json r = inl e ->
    failure w req e
| text_extraction (message : JSValue) (r : UpstreamResponse) (data : JSValue) (e : JSError) :
    reaches_upstream w req message ->
    upstream w (upstream_request (Deno_env_get w "GEMINI_API_KEY") message) = inr r ->
    ok r = true -> up_json r = inr data -> extract_response data = inl e ->
    failure w req e.

(** ** Sample inputs *)

Module Sample.

(** [{"message": m}] *)
Definition body_with (m : JSValue) : JSValue := JObject [("message", m)].

Definition post (v : JSValue) : Request := mkRequest "POST" (inr v).

(** [{"message":"Hello"}] sent with POST. *)
Definition hello : Request := post (body_with (JString "Hello")).

(** [{"candidates":[{"content":{"parts":[{"text": text}]}}]}] *)
Definition candidates_payload (text : string) : JSValue :=
  JObject [("candidates",
            JArray [JObject [("content",
                              JObject [("parts",
                                        JArray [JObject [("text", JString text)]])])]])].

(** [{"candidates":[{"content":{}}]}]: the content has no parts. *)
Definition no_parts_payload : JSValue :=
  JObject [("candidates", JArray [JObject [("content", JObject [])]])].

(** [{"candidates":[]}] *)
Definition no_candidates_payload : JSValue :=
  JObject [("candidates", JArray [])].

(** A process environment with the key set, and one without it. *)
Definition with_key : gmap string string := <["GEMINI_API_KEY" := "secret"]> ∅.
Definition without_key : gmap string string := ∅.

(** An upstream that answers every request with status [code] and the
    JSON payload [data]; one whose connection fails. *)
Definition answering (code : Z) (data : JSValue) : World :=
  mkWorld with_key (fun _ => inr (mkUpstream code (inr data))).

Definition unreachable : World :=
  mkWorld with_key (fun _ => inl (TypeError "error sending request")).

Definition unconfigured : World :=
  mkWorld without_key (fun _ => inr (mkUpstream 200 (inr (candidates_payload "Hi there!")))).

End Sample.

(** ** Further conditions on the inputs of the handler *)

(** [undefined] and [null]: the values with no properties to read. *)
Definition nullish (v : JSValue) : bool :=
  match v with
  | JUndefined | JNull => true
  | _ => false
  end.

Definition is_object (v : JSValue) : bool :=
  match v with
  | JObject _ => true
  | _ => false
  end.

(** The code unit that the head of an escaped text stands for, and the
    rest of the text: the reading of one character of a JSON string,
    for the escapes that [JSON.escape_char] writes.  A bare double
    quote stands for no character: it ends the string. *)
Definition hex_value (c : ascii) : N :=
  let n := N_of_ascii c in
  if ((48 <=? n) && (n <=? 57))%N then (n - 48)%N else (n - 87)%N.

Definition unescape_head (s : string) : option (ascii * string) :=
  match s with
  | EmptyString => None
  | String c rest =>
      if (N_of_ascii c =? 92)%N then
        match rest with
        | EmptyString => None
        | String d rest' =>
            let n := N_of_ascii d in
            if (n =? 34)%N then Some (d, rest')
            else if (n =? 92)%N then Some (d, rest')
            else if (n =? 98)%N then Some ("008"%char, rest')
            else if (n =? 116)%N then Some ("009"%char, rest')
            else if (n =? 110)%N then Some ("010"%char, rest')
            else if (n =? 102)%N then Some ("012"%char, rest')
            else if (n =? 114)%N then Some ("013"%char, rest')
            else
              match rest' with
              | String _ (String _ (String h (String l rest''))) =>
                  Some (ascii_of_N (16 * hex_value h + hex_value l), rest'')
              | _ => None
              end
        end
      else if (N_of_ascii c =? 34)%N then None
      else Some (c, rest)
  end.

(** * The chat client: [ChatInterface]

    The component keeps the list of conversations, the current
    conversation, its messages, the text being typed and a loading flag.
    Its event handlers talk to the backend (tables [conversations] and
    [messages], and the edge function [chat-with-ai]) and queue state
    updates.  A handler sees the state of the render it was created in;
    the updates it queues are applied afterwards, in order.

    The backend client, the toast and the clock are the component's
    surroundings: what a backend call resolves to is an input of the
    model, and the calls, the queued updates, the console lines and the
    toasts form the trace of a run.  What React runs after a state
    change (the [useEffect] callbacks) is a run of its own and is not
    part of the trace of the handler that queued the change. *)

Module Client.

(** ** Values *)

(** [s.trim()]: [s] without its leading and trailing white space. *)
Fixpoint trim_start (s : string) : string :=
  match s with
  | EmptyString => EmptyString
  | String c s' => if Str.is_space c then trim_start s' else s
  end.

Fixpoint trim_end (s : string) : string :=
  match s with
  | EmptyString => EmptyString
  | String c s' =>
      match trim_end s' with
      | EmptyString => if Str.is_space c then EmptyString else String c EmptyString
      | rest => String c rest
      end
  end.

Definition trim (s : string) : string := trim_end (trim_start s).

(** [a || b] *)
Definition or_else (a b : JSValue) : JSValue := if truthy a then a else b.

(** [v?.key]: [undefined] when [v] is [undefined] or [null]. *)
Definition optional_member (v : JSValue) (key : string) : Outcome JSValue :=
  match v with
  | JUndefined | JNull => inr JUndefined
  | _ => get_member v key
  end.

(** The own enumerable properties that [{ ...v }] copies: those of an
    object, the indexed elements of an array, the indexed code units of
    a string, none for any other value. *)
Fixpoint indexed (i : nat) (items : list JSValue) : list (string * JSValue) :=
  match items with
  | [] => []
  | x :: rest => (Str.of_N (N.of_nat i), x) :: indexed (S i) rest
  end.

Fixpoint units (s : string) : list JSValue :=
  match s with
  | EmptyString => []
  | String c s' => JString (String c EmptyString) :: units s'
  end.

Definition spread (v : JSValue) : list (string * JSValue) :=
  match v with
  | JObject props => props
  | JArray items => indexed 0 items
  | JString s => indexed 0 (units s)
  | _ => []
  end.

(** [{ ...props, [key]: value }]: a key that is there keeps its place. *)
Fixpoint set_field (key : string) (value : JSValue) (props : list (string * JSValue))
  : list (string * JSValue) :=
  match props with
  | [] => [(key, value)]
  | (k, v) :: rest =>
      if String.eqb k key then (k, value) :: rest
      else (k, v) :: set_field key value rest
  end.

(** [msg => ({ ...msg, role: msg.role })] *)
Definition retype (msg : JSValue) : Outcome JSValue :=
  role ← get_member msg "role";
  mret (JObject (set_field "role" role (spread msg))).

(** [rows.map(f)] for a callback that may throw. *)
Fixpoint map_outcome (f : JSValue -> Outcome JSValue) (rows : list JSValue)
  : Outcome (list JSValue) :=
  match rows with
  | [] => inr []
  | x :: rest =>
      match f x with
      | inl e => inl e
      | inr y =>
          match map_outcome f rest with
          | inl e => inl e
          | inr ys => inr (y :: ys)
          end
      end
  end.

(** [v.map(f)]: only an array has a [map] to call. *)
Definition map_method (v : JSValue) (f : JSValue -> Outcome JSValue)
  : Outcome (list JSValue) :=
  match v with
  | JArray rows => map_outcome f rows
  | _ => inl (TypeError "(data || []).map is not a function")
  end.

(** ** The surroundings *)

(** What [throw] and a rejected promise carry: an exception raised by
    the engine, or any value, such as the [error] of a backend result. *)
Inductive Thrown : Type :=
| Raised (e : JSError)
| ThrownValue (v : JSValue).

(** The steps of a query on a table, as the component chains them. *)
Inductive Step : Type :=
| Select (columns : option string)
| Insert (rows : JSValue)
| Eq (column : string) (value : JSValue)
| Order (column : string) (ascending : bool)
| Single.

(** A backend call: [supabase.from(table)] followed by steps, or
    [supabase.functions.invoke(name, options)]. *)
Inductive Call : Type :=
| Query (table : string) (steps : list Step)
| Invoke (name : string) (options : JSValue).

(** What a run leaves behind, in order. *)
Inductive Effect : Type :=
| Request (c : Call)
| SetConversations (v : JSValue)
| SetCurrentConversation (v : JSValue)
| SetMessages (rows : list JSValue)
| AppendMessage (row : JSValue)
| SetNewMessage (s : string)
| SetLoading (b : bool)
| LogFailure (label : string) (error : Thrown)
| Toast (title description variant : string)
| PreventDefault.

(** The backend answers a call given the calls made before it: the
    awaited value, or what the promise is rejected with.  [clock] is
    the text of [new Date().toISOString()]. *)
Record Backend : Type := mkBackend {
  respond : list Call -> Call -> Thrown + JSValue;
  clock : string
}.

(** What the handlers of one render see: the signed-in user of the auth
    context and the state variables. *)
Record State : Type := mkState {
  user : JSValue;
  conversations : JSValue;
  currentConversation : JSValue;
  messages : list JSValue;
  newMessage : string;
  loading : bool
}.

(** The key event given to [handleKeyPress]. *)
Record KeyEvent : Type := mkKey { key : string; shiftKey : bool }.

(** ** Code that throws, awaits and queues updates *)

Definition C (A : Type) : Type := list Effect -> (Thrown + A) * list Effect.

#[global] Instance C_ret : MRet C := fun A x t => (inr x, t).
#[global] Instance C_bind : MBind C := fun A B f m t =>
  match m t with
  | (inl e, t') => (inl e, t')
  | (inr x, t') => f x t'
  end.

Definition throw {A : Type} (e : Thrown) : C A := fun t => (inl e, t).

Definition emit (ev : Effect) : C unit := fun t => (inr tt, t ++ [ev]).

(** A pure step whose exception is raised by the engine. *)
Definition lift {A : Type} (o : Outcome A) : C A :=
  fun t => (match o with inl e => inl (Raised e) | inr x => inr x end, t).

Definition try_catch {A : Type} (body : C A) (handle : Thrown -> C A) : C A :=
  fun t =>
    match body t with
    | (inl e, t') => handle e t'
    | (inr x, t') => (inr x, t')
    end.

(** [try { body } finally { final }]: [final] runs either way. *)
Definition finally {A : Type} (body : C A) (final : C unit) : C A :=
  fun t =>
    let '(r, t') := body t in
    match final t' with
    | (inl e, t'') => (inl e, t'')
    | (inr _, t'') => (r, t'')
    end.

(** The backend calls in a trace. *)
Fixpoint calls (t : list Effect) : list Call :=
  match t with
  | [] => []
  | Request c :: rest => c :: calls rest
  | _ :: rest => calls rest
  end.

(** [await] on a backend call. *)
Definition await (b : Backend) (c : Call) : C JSValue :=
  fun t => (respond b (calls t) c, t ++ [Request c]).

(** [toast({ title: "Error", description, variant: "destructive" })] *)
Definition toast_error (description : string) : C unit :=
  emit (Toast "Error" description "destructive").

(** ** The handlers *)

(** Lines 54-71. *)
Definition loadConversations (b : Backend) : C unit :=
  try_catch
    (result ← await b (Query "conversations"
                         [Select (Some "*"); Order "updated_at" false]);
     data ← lift (destructure result "data");
     error ← lift (destructure result "error");
     if truthy error then throw (ThrownValue error)
     else emit (SetConversations (or_else data (JArray []))))
    (fun error =>
       emit (LogFailure "Error loading conversations:" error);;
       toast_error "Failed to load conversations").

(** Lines 73-98. *)
Definition loadMessages (b : Backend) (conversationId : JSValue) : C unit :=
  try_catch
    (result ← await b (Query "messages"
                         [Select (Some "*"); Eq "conversation_id" conversationId;
                          Order "created_at" true]);
     data ← lift (destructure result "data");
     error ← lift (destructure result "error");
     if truthy error then throw (ThrownValue error)
     else
       typedMessages ← lift (map_method (or_else data (JArray [])) retype);
       emit (SetMessages typedMessages))
    (fun error =>
       emit (LogFailure "Error loading messages:" error);;
       toast_error "Failed to load messages").

(** The row [{ user_id: user?.id, title }]. *)
Definition conversation_row (user_id : JSValue) (title : string) : JSValue :=
  JObject [("user_id", user_id); ("title", JString title)].

(** [.from('conversations').insert([row]).select().single()] *)
Definition insert_conversation (row : JSValue) : Call :=
  Query "conversations" [Insert (JArray [row]); Select None; Single].

(** Lines 100-121. *)
Definition createNewConversation (b : Backend) (s : State) : C unit :=
  try_catch
    (user_id ← lift (optional_member (user s) "id");
     result ← await b (insert_conversation (conversation_row user_id "New Chat"));
     data ← lift (destructure result "data");
     error ← lift (destructure result "error");
     if truthy error then throw (ThrownValue error)
     else
       id ← lift (get_member data "id");
       emit (SetCurrentConversation id);;
       emit (SetMessages []);;
       loadConversations b)
    (fun error =>
       emit (LogFailure "Error creating conversation:" error);;
       toast_error "Failed to create new conversation").

(** The row [{ conversation_id, role, content }] and its insertion. *)
Definition message_row (conversationId : JSValue) (role : string) (content : JSValue)
  : JSValue :=
  JObject [("conversation_id", conversationId); ("role", JString role);
           ("content", content)].

Definition insert_message (row : JSValue) : Call :=
  Query "messages" [Insert (JArray [row])].

(** [newMessage.slice(0, 50) + '...'] *)
Definition title_of (text : string) : string := Str.take 50 text +:+ "...".

(** Lines 126-150: the conversation to write to.  [None] stands for the
    [return] of the [catch] block. *)
Definition ensure_conversation (b : Backend) (s : State) : C (option JSValue) :=
  let conversationId := currentConversation s in
  if negb (truthy conversationId) then
    try_catch
      (user_id ← lift (optional_member (user s) "id");
       result ← await b (insert_conversation
                           (conversation_row user_id (title_of (newMessage s))));
       data ← lift (destructure result "data");
       error ← lift (destructure result "error");
       if truthy error then throw (ThrownValue error)
       else
         id ← lift (get_member data "id");
         emit (SetCurrentConversation id);;
         loadConversations b;;
         mret (Some id))
      (fun error =>
         emit (LogFailure "Error creating conversation:" error);;
         toast_error "Failed to create conversation";;
         mret None)
  else mret (Some conversationId).

(** [{ id: 'temp-user', role: 'user', content, created_at }] *)
Definition temp_message (b : Backend) (userMessage : string) : JSValue :=
  JObject [("id", JString "temp-user"); ("role", JString "user");
           ("content", JString userMessage); ("created_at", JString (clock b))].

(** [{ body: { message: userMessage } }] *)
Definition invoke_options (userMessage : string) : JSValue :=
  JObject [("body", JObject [("message", JString userMessage)])].

(** Lines 156-208: the [try] block, its [catch] and its [finally]. *)
Definition exchange (b : Backend) (conversationId : JSValue) (userMessage : string)
  : C unit :=
  finally
    (try_catch
       (stored ← await b (insert_message
                            (message_row conversationId "user" (JString userMessage)));
        userMessageError ← lift (destructure stored "error");
        if truthy userMessageError then throw (ThrownValue userMessageError)
        else
          emit (AppendMessage (temp_message b userMessage));;
          answered ← await b (Invoke "chat-with-ai" (invoke_options userMessage));
          aiResponse ← lift (destructure answered "data");
          aiError ← lift (destructure answered "error");
          if truthy aiError then throw (ThrownValue aiError)
          else
            content ← lift (get_member aiResponse "response");
            kept ← await b (insert_message
                              (message_row conversationId "assistant" content));
            aiMessageError ← lift (destructure kept "error");
            if truthy aiMessageError then throw (ThrownValue aiMessageError)
            else loadMessages b conversationId)
       (fun error =>
          emit (LogFailure "Error sending message:" error);;
          toast_error "Failed to send message"))
    (emit (SetLoading false)).

(** Lines 123-209. *)
Definition sendMessage (b : Backend) (s : State) : C unit :=
  if negb (truthy (JString (trim (newMessage s)))) || loading s then mret tt
  else
    conversation ← ensure_conversation b s;
    match conversation with
    | None => mret tt
    | Some conversationId =>
        let userMessage := newMessage s in
        emit (SetNewMessage EmptyString);;
        emit (SetLoading true);;
        exchange b conversationId userMessage
    end.

(** Lines 211-216.  [sendMessage()] is started, not awaited. *)
Definition handleKeyPress (b : Backend) (s : State) (e : KeyEvent) : C unit :=
  if String.eqb (key e) "Enter" && negb (shiftKey e) then
    emit PreventDefault;;
    sendMessage b s
  else mret tt.

(** ** The state after a run *)

(** One queued update applied to the state. *)
Definition update (s : State) (ev : Effect) : State :=
  match ev with
  | SetConversations v =>
      mkState (user s) v (currentConversation s) (messages s) (newMessage s) (loading s)
  | SetCurrentConversation v =>
      mkState (user s) (conversations s) v (messages s) (newMessage s) (loading s)
  | SetMessages rows =>
      mkState (user s) (conversations s) (currentConversation s) rows (newMessage s) (loading s)
  | AppendMessage row =>
      mkState (user s) (conversations s) (currentConversation s) (messages s ++ [row])
              (newMessage s) (loading s)
  | SetNewMessage text =>
      mkState (user s) (conversations s) (currentConversation s) (messages s) text (loading s)
  | SetLoading flag =>
      mkState (user s) (conversations s) (currentConversation s) (messages s) (newMessage s) flag
  | _ => s
  end.

Definition updates (s : State) (t : list Effect) : State := fold_left update t s.

(** The trace of a handler run on its own, and the state it leads to. *)
Definition trace_of (run : C unit) : list Effect := snd (run []).

Definition state_after (s : State) (run : C unit) : State :=
  updates s (trace_of run).

(** [user?.id] as a value. *)
Definition user_id (s : State) : JSValue :=
  match optional_member (user s) "id" with
  | inr v => v
  | inl _ => JUndefined
  end.

(** A row that is an object with a [role] property. *)
Definition has_role (row : JSValue) : bool :=
  match row with
  | JObject props => bool_decide (is_Some (lookup_prop "role" props))
  | _ => false
  end.

(** A backend result that makes the caller give up: the promise is
    rejected, the result has no properties to read, or its [error] is
    truthy. *)
Definition gives_up (o : Thrown + JSValue) : bool :=
  match o with
  | inl _ => true
  | inr result =>
      match get_member result "error" with
      | inl _ => true
      | inr error => truthy error
      end
  end.

(** [data.field] of a backend result: what the caller goes on with when
    the call is answered, the result has no error and the field can be
    read. *)
Definition data_field (field : string) (o : Thrown + JSValue) : option JSValue :=
  match o with
  | inl _ => None
  | inr result =>
      match get_member result "data", get_member result "error" with
      | inr data, inr error =>
          if truthy error then None
          else match get_member data field with
               | inr v => Some v
               | inl _ => None
               end
      | _, _ => None
      end
  end.

Definition list_conversations : Call :=
  Query "conversations" [Select (Some "*"); Order "updated_at" false].

Definition list_messages (id : JSValue) : Call :=
  Query "messages" [Select (Some "*"); Eq "conversation_id" id;
                    Order "created_at" true].

(** The calls of one exchange in the conversation [id], after the calls
    [h]: the user's row is stored; if that went well the edge function
    is invoked; if it answered with a [response] the assistant's row is
    stored; if that went well the messages are listed. *)
Definition exchange_calls (b : Backend) (h : list Call) (id : JSValue) (text : string)
  : list Call :=
  let store_user := insert_message (message_row id "user" (JString text)) in
  let invoke := Invoke "chat-with-ai" (invoke_options text) in
  if gives_up (respond b h store_user) then [store_user]
  else
    match data_field "response" (respond b (h ++ [store_user]) invoke) with
    | None => [store_user; invoke]
    | Some content =>
        let store_assistant :=
          insert_message (message_row id "assistant" content) in
        if gives_up (respond b (h ++ [store_user; invoke]) store_assistant)
        then [store_user; invoke; store_assistant]
        else [store_user; invoke; store_assistant; list_messages id]
    end.

(** The calls of [sendMessage]: none for a blank input or a busy
    component; in a selected conversation, those of the exchange;
    otherwise the conversation is created first and, if that gave an
    id, the conversations are listed (whatever that call gives) and the
    exchange takes place in the new conversation. *)
Definition expected_calls (b : Backend) (s : State) : list Call :=
  if Str.all_space (newMessage s) || loading s then []
  else if truthy (currentConversation s)
  then exchange_calls b [] (currentConversation s) (newMessage s)
  else
    let create := insert_conversation
                    (conversation_row (user_id s) (title_of (newMessage s))) in
    match data_field "id" (respond b [] create) with
    | None => [create]
    | Some id =>
        create :: list_conversations ::
        exchange_calls b [create; list_conversations] id (newMessage s)
    end.

(** ** Sample surroundings *)

(** The result object [{ data, error }] of a backend call. *)
Definition result (data error : JSValue) : JSValue :=
  JObject [("data", data); ("error", error)].

Definition alice : JSValue := JObject [("id", JString "u1")].

(** The state while [text] is typed in the conversation [current]. *)
Definition typing (current : JSValue) (text : string) : State :=
  mkState alice (JArray []) current [] text false.

Definition stored_rows : list JSValue :=
  [JObject [("id", JString "m1"); ("role", JString "user");
            ("content", JString "Hello")];
   JObject [("id", JString "m2"); ("role", JString "assistant");
            ("content", JString "Hi there!")]].

(** A backend on which everything succeeds: the edge function answers
    [{"response":"Hi there!"}], a new conversation gets the id [c1],
    and the messages read back are [stored_rows]. *)
Definition willing : Backend :=
  mkBackend
    (fun _ c =>
       match c with
       | Invoke _ _ => inr (result (JObject [("response", JString "Hi there!")]) JNull)
       | Query table (Select _ :: _) =>
           if String.eqb table "messages" then inr (result (JArray stored_rows) JNull)
           else inr (result (JArray []) JNull)
       | Query table (Insert _ :: _) =>
           if String.eqb table "conversations"
           then inr (result (JObject [("id", JString "c1")]) JNull)
           else inr (result JNull JNull)
       | _ => inr (result JNull JNull)
       end)
    "2024-01-01T00:00:00.000Z".

(** A backend that answers every call with an error. *)
Definition refusing : Backend :=
  mkBackend
    (fun _ _ => inr (result JNull (JObject [("message", JString "denied")])))
    "2024-01-01T00:00:00.000Z".

End Client.

(** ** Basic facts *)

(** A pattern reads what a property access reads, and throws where it
    throws. *)
Lemma destructure_eq (v : JSValue) (key : string) :
  destructure v key =
  match get_member v key with
  | inl _ => inl (pattern_error v key)
  | inr x => inr x
  end.
Proof. destruct v; reflexivity. Qed.

Lemma destructure_inr (v : JSValue) (key : string) (x : JSValue) :
  get_member v key = inr x -> destructure v key = inr x.
Proof. intros H. rewrite destructure_eq, H. reflexivity. Qed.

Lemma destructure_inl (v : JSValue) (key : string) (e : JSError) :
  get_member v key = inl e -> destructure v key = inl (pattern_error v key).
Proof. intros H. rewrite destructure_eq, H. reflexivity. Qed.

(** [Number::toString] on 0.1, 1e21, -42, 123.456, 5e-324, 1e-7, and
    on the small values 1e-323 and 1.5e-323, whose neighbours are far
    apart. *)
Example toString_values :
  Number.toString (S754_finite false 7205759403792794 (-56)) = "0.1" /\
  Number.toString (S754_finite false 7629394531250000 17) = "1e+21" /\
  Number.toString (S754_finite true 5910974510923776 (-47)) = "-42" /\
  Number.toString (S754_finite false 8687443681197687 (-46)) = "123.456" /\
  Number.toString (S754_finite false 1 (-1074)) = "5e-324" /\
  Number.toString (S754_finite false 7555786372591432 (-76)) = "1e-7" /\
  Number.toString (S754_finite false 2 (-1074)) = "1e-323" /\
  Number.toString (S754_finite false 3 (-1074)) = "1.5e-323".
Proof. vm_compute. repeat split. Qed.

(** The body sent upstream for the message ["Hello"], and the text of a
    value with an [undefined] member, an [undefined] element, a negative
    zero and a string with a quote and a line feed. *)
Example stringify_values :
  JSON.stringify (envelope (JString "Hello")) =
    Some ("{" +:+ Str.quoted "contents" +:+ ":[{" +:+ Str.quoted "parts" +:+
          ":[{" +:+ Str.quoted "text" +:+ ":" +:+ Str.quoted "Hello" +:+ "}]}]}") /\
  JSON.stringify
    (JObject [("a", JUndefined);
              ("b", JArray [JUndefined; JNumber (S754_zero true); JBool true; JNull]);
              ("c", JString ("x" +:+ Str.dq +:+ String "010"%char EmptyString))]) =
    Some ("{" +:+ Str.quoted "b" +:+ ":[null,0,true,null]," +:+ Str.quoted "c" +:+
          ":" +:+ Str.quoted ("x\" +:+ Str.dq +:+ "\n") +:+ "}") /\
  JSON.stringify JUndefined = None.
Proof. vm_compute. repeat split. Qed.

Lemma fetch_calls_app (t u : list Event) :
  fetch_calls (t ++ u) = fetch_calls t ++ fetch_calls u.
Proof.
  induction t as [|ev t IH]; [reflexivity|].
  destruct ev; simpl; rewrite IH; reflexivity.
Qed.

Lemma stringify_object (props : list (string * JSValue)) :
  is_Some (JSON.stringify (JObject props)).
Proof. eexists. reflexivity. Qed.

Lemma stringify_response_string (text : string) :
  JSON.stringify (JObject [("response", JString text)]) =
  Some ("{" +:+ Str.quoted "response" +:+ ":" +:+ JSON.quote text +:+ "}").
Proof. reflexivity. Qed.

Lemma create_cors : Headers.create corsHeaders =
  <["access-control-allow-headers" :=
      "authorization, x-client-info, apikey, content-type"]>
    (<["access-control-allow-origin" := "*"]> ∅).
Proof. vm_compute. reflexivity. Qed.

Lemma create_json : Headers.create json_headers = json_header_map.
Proof. vm_compute. reflexivity. Qed.

Lemma new_Response_preflight :
  new_Response (Some "ok") (mkInit None corsHeaders) = preflight_reply.
Proof. vm_compute. reflexivity. Qed.

(** A reply built on [json_headers] has the JSON header map, whatever
    its body and status. *)
Lemma new_Response_json (text : option string) (code : option Z) :
  new_Response text (mkInit code json_headers) =
  json_reply (default 200 code) (default EmptyString text).
Proof.
  unfold new_Response, json_reply. cbn [init_headers init_status].
  rewrite create_json.
  destruct text; [|reflexivity].
  replace (Headers.has json_header_map "Content-Type") with true
    by (vm_compute; reflexivity).
  reflexivity.
Qed.

Lemma new_Response_bad_request :
  new_Response (JSON.stringify (JObject [("error", JString message_required)]))
               (mkInit (Some 400) json_headers) = bad_request_reply.
Proof. rewrite new_Response_json. vm_compute. reflexivity. Qed.

Lemma new_Response_not_configured :
  new_Response (JSON.stringify (JObject [("response", JString not_configured)]))
               (mkInit None json_headers) = not_configured_reply.
Proof. rewrite new_Response_json. vm_compute. reflexivity. Qed.

Lemma new_Response_error :
  new_Response (JSON.stringify (JObject [("response", JString try_again)]))
               (mkInit (Some 500) json_headers) = error_reply.
Proof. rewrite new_Response_json. vm_compute. reflexivity. Qed.

Lemma new_Response_fallback :
  new_Response (JSON.stringify (JObject [("response", JString no_response)]))
               (mkInit None json_headers) = fallback_reply.
Proof. rewrite new_Response_json. vm_compute. reflexivity. Qed.

Lemma json_header_map_get :
  Headers.get json_header_map "Access-Control-Allow-Origin" = Some "*" /\
  Headers.get json_header_map "Access-Control-Allow-Headers" =
    Some "authorization, x-client-info, apikey, content-type" /\
  Headers.get json_header_map "Content-Type" = Some "application/json".
Proof. repeat split; vm_compute; reflexivity. Qed.

Lemma text_header_map_get :
  Headers.get text_header_map "Access-Control-Allow-Origin" = Some "*" /\
  Headers.get text_header_map "Access-Control-Allow-Headers" =
    Some "authorization, x-client-info, apikey, content-type" /\
  Headers.get text_header_map "Content-Type" = Some "text/plain;charset=UTF-8".
Proof. repeat split; vm_compute; reflexivity. Qed.

(** ** The paths through the handler *)

Ltac run_monad :=
  unfold try_catch, relay, on_error, fetch, emit, lift, throw,
         mbind, M_bind, mret, M_ret.

Section Paths.

Variables (w : World) (req : Request) (t : list Event).

Lemma handler_preflight :
  method req = "OPTIONS" -> handler w req t = (inr preflight_reply, t).
Proof.
  intros Hm. unfold handler. rewrite Hm. cbn [String.eqb Ascii.eqb Bool.eqb].
  unfold mret, M_ret. rewrite new_Response_preflight. reflexivity.
Qed.

Lemma handler_try :
  method req <> "OPTIONS" ->
  handler w req t = try_catch (relay w req) on_error t.
Proof.
  intros Hm. unfold handler.
  destruct (String.eqb_spec (method req) "OPTIONS"); [contradiction|reflexivity].
Qed.

(** An exception of the [try] block ends in the [catch] block. *)
Lemma handler_catch (e : JSError) (t' : list Event) :
  method req <> "OPTIONS" ->
  relay w req t = (inl e, t') ->
  handler w req t =
  (inr error_reply,
   t' ++ [ConsoleError [LogText "Error in chat-with-ai function:"; LogError e]]).
Proof.
  intros Hm Hr. rewrite (handler_try Hm). unfold try_catch. rewrite Hr.
  unfold on_error, emit, mbind, M_bind, mret, M_ret.
  rewrite new_Response_error. reflexivity.
Qed.

(** A reply of the [try] block is the reply of the handler. *)
Lemma handler_return (r : Response) (t' : list Event) :
  method req <> "OPTIONS" ->
  relay w req t = (inr r, t') ->
  handler w req t = (inr r, t').
Proof.
  intros Hm Hr. rewrite (handler_try Hm). unfold try_catch. rewrite Hr.
  reflexivity.
Qed.

Lemma relay_body_throws (e : JSError) :
  json req = inl e -> relay w req t = (inl e, t).
Proof. intros Hj. run_monad. rewrite Hj. reflexivity. Qed.

Lemma relay_destructure_throws (parsed : JSValue) (e : JSError) :
  json req = inr parsed -> destructure parsed "message" = inl e ->
  relay w req t = (inl e, t).
Proof. intros Hj Hg. run_monad. rewrite Hj, Hg. reflexivity. Qed.

Lemma relay_falsy_message (parsed message : JSValue) :
  json req = inr parsed -> get_member parsed "message" = inr message ->
  truthy message = false ->
  relay w req t = (inr bad_request_reply, t).
Proof.
  intros Hj Hg Hf. run_monad. rewrite Hj, (destructure_inr _ _ _ Hg), Hf. cbn [negb].
  rewrite new_Response_bad_request. reflexivity.
Qed.

Lemma relay_no_key (parsed message : JSValue) :
  json req = inr parsed -> get_member parsed "message" = inr message ->
  truthy message = true ->
  truthy_string (Deno_env_get w "GEMINI_API_KEY") = false ->
  relay w req t =
  (inr not_configured_reply,
   t ++ [ConsoleError [LogText "GEMINI_API_KEY not found in environment variables"]]).
Proof.
  intros Hj Hg Ht Hk. run_monad. rewrite Hj, (destructure_inr _ _ _ Hg), Ht. cbn [negb].
  rewrite Hk. cbn [negb].
  rewrite new_Response_not_configured. reflexivity.
Qed.

(** From the upstream call on, the run is decided by the upstream's
    answer. *)
Lemma relay_upstream (message : JSValue) :
  reaches_upstream w req message ->
  let sent := upstream_request (Deno_env_get w "GEMINI_API_KEY") message in
  relay w req t =
  match upstream w sent with
  | inl e => (inl e, t ++ [FetchCall sent])
  | inr r =>
      if ok r then
        match up_json r with
        | inl e => (inl e, t ++ [FetchCall sent])
        | inr data =>
            let t' := (t ++ [FetchCall sent]) ++
                      [ConsoleLog [LogText "Gemini API response:"; LogValue data]] in
            match extract_response data with
            | inl e => (inl e, t')
            | inr response =>
                (inr (json_reply 200
                        (default EmptyString
                           (JSON.stringify (JObject [("response", response)])))),
                 t')
            end
        end
      else (inl (Error ("Gemini API error: " +:+ Str.of_Z (up_status r))),
            t ++ [FetchCall sent])
  end.
Proof.
  intros [(parsed & Hj & Hg) Ht Hk] sent. run_monad.
  rewrite Hj, (destructure_inr _ _ _ Hg), Ht. cbn [negb]. rewrite Hk. cbn [negb].
  subst sent. unfold upstream_request.
  destruct (upstream w _) as [e|r]; [reflexivity|].
  destruct (ok r); cbn [negb]; [|reflexivity].
  destruct (up_json r) as [e|data]; [reflexivity|].
  destruct (extract_response data) as [e|response]; [reflexivity|].
  rewrite new_Response_json. reflexivity.
Qed.

End Paths.

(** ** Extraction of the text *)

Lemma extract_no_content (data : JSValue) :
  no_content data -> extract_response data = inr (JString no_response).
Proof.
  intros H. unfold extract_response, has_content, first_content, first_candidate.
  unfold mbind, Outcome_bind, mret, Outcome_ret.
  destruct H as [c Hc Hf | c c0 Hc Ht H0 Hf | c c0 x Hc Ht H0 Ht0 Hx Hf].
  - rewrite Hc, Hf, Hf. reflexivity.
  - rewrite Hc, Ht, H0, Hf, Hf. reflexivity.
  - rewrite Hc, Ht, H0, Ht0, Hx, Hf. reflexivity.
Qed.

Lemma extract_candidate_text (data : JSValue) (text : string) :
  candidate_text data = Some text -> extract_response data = inr (JString text).
Proof.
  unfold candidate_text. intros H.
  destruct data as [| | | | |?|props]; try discriminate.
  destruct (lookup_prop "candidates" props) as [[| | | | |[|[| | | | | |candidate] ?]|]|] eqn:Hc;
    try discriminate.
  destruct (lookup_prop "content" candidate) as [[| | | | | |content]|] eqn:Hk;
    try discriminate.
  destruct (lookup_prop "parts" content) as [[| | | | |[|[| | | | | |part] ?]|]|] eqn:Hp;
    try discriminate.
  destruct (lookup_prop "text" part) as [[| | | |s| |]|] eqn:Hx; try discriminate.
  injection H as ->.
  unfold extract_response, has_content, first_content, first_candidate.
  unfold mbind, Outcome_bind, mret, Outcome_ret.
  cbn [get_member get_index nth truthy]. rewrite Hc.
  cbn [default from_option id get_member get_index nth truthy]. rewrite Hk.
  cbn [default from_option id get_member get_index nth truthy]. rewrite Hp.
  cbn [default from_option id get_member get_index nth truthy]. rewrite Hx.
  reflexivity.
Qed.

(** ** Every run ends in a reply *)

(** The [try] block either throws or answers with a JSON reply. *)
Lemma relay_cases (w : World) (req : Request) (t : list Event) :
  (exists e t', relay w req t = (inl e, t')) \/
  (exists code text t', relay w req t = (inr (json_reply code text), t')).
Proof.
  destruct (json req) as [e|parsed] eqn:Hj.
  { left. eauto using relay_body_throws. }
  destruct (get_member parsed "message") as [e|message] eqn:Hg.
  { left. eauto using relay_destructure_throws, destructure_inl. }
  destruct (truthy message) eqn:Ht.
  2:{ right. do 3 eexists. eapply relay_falsy_message; eauto. }
  destruct (truthy_string (Deno_env_get w "GEMINI_API_KEY")) eqn:Hk.
  2:{ right. do 3 eexists. eapply relay_no_key; eauto. }
  assert (Hr : reaches_upstream w req message).
  { split; [exists parsed; auto|assumption|assumption]. }
  rewrite (relay_upstream w req t message Hr). cbv zeta.
  destruct (upstream w _) as [e|r]; [left; eauto|].
  destruct (ok r); [|left; eauto].
  destruct (up_json r) as [e|data]; [left; eauto|].
  destruct (extract_response data) as [e|v]; [left; eauto|right; eauto].
Qed.

(** The [try] block throws only for one of the listed failures. *)
Lemma relay_throws_failure
    (w : World) (req : Request) (t t' : list Event) (e : JSError) :
  relay w req t = (inl e, t') -> failure w req e.
Proof.
  intros H.
  destruct (json req) as [e0|parsed] eqn:Hj.
  { rewrite (relay_body_throws w req t e0 Hj) in H.
    injection H as -> _. apply body_parsing, Hj. }
  destruct (get_member parsed "message") as [e0|message] eqn:Hg.
  { pose proof (destructure_inl _ _ _ Hg) as Hd.
    rewrite (relay_destructure_throws w req t parsed _ Hj Hd) in H.
    injection H as <- _. apply (body_destructuring _ _ parsed); assumption. }
  destruct (truthy message) eqn:Ht.
  2:{ rewrite (relay_falsy_message w req t parsed message Hj Hg Ht) in H.
      discriminate. }
  destruct (truthy_string (Deno_env_get w "GEMINI_API_KEY")) eqn:Hk.
  2:{ rewrite (relay_no_key w req t parsed message Hj Hg Ht Hk) in H.
      discriminate. }
  assert (Hr : reaches_upstream w req message).
  { split; [exists parsed; auto|assumption|assumption]. }
  rewrite (relay_upstream w req t message Hr) in H. cbv zeta in H.
  destruct (upstream w _) as [e0|r] eqn:Hu.
  { injection H as -> _. apply (network_call _ _ message); assumption. }
  destruct (ok r) eqn:Hok.
  2:{ injection H as <- _. apply (upstream_status _ _ message); assumption. }
  destruct (up_json r) as [e0|data] eqn:Hp.
  { injection H as -> _. apply (upstream_parsing _ _ message r); assumption. }
  destruct (extract_response data) as [e0|v] eqn:Hx; [|discriminate].
  injection H as -> _. apply (text_extraction _ _ message r data); assumption.
Qed.

(** Outside the preflight, the handler answers with a JSON reply. *)
Lemma handler_json_reply (w : World) (req : Request) (t : list Event) :
  method req <> "OPTIONS" ->
  exists code text t', handler w req t = (inr (json_reply code text), t').
Proof.
  intros Hm.
  destruct (relay_cases w req t) as [(e & t' & Hr)|(code & text & t' & Hr)].
  - do 3 eexists. apply (handler_catch w req t e t' Hm Hr).
  - do 3 eexists. apply (handler_return w req t _ t' Hm Hr).
Qed.

(** * The properties of the specification *)

(** ** Validation of the message *)

(** C1 (as the code has it).  A request that is not the preflight and
    whose JSON body has [message] omitted, null or the empty string gets
    status 400 and the body [{"error":"Message is required"}]; the run
    adds nothing to the trace, so the upstream API is not called. *)
Theorem empty_message_rejected
    (w : World) (req : Request) (t : list Event) (parsed message : JSValue) :
  method req <> "OPTIONS" ->
  json req = inr parsed ->
  get_member parsed "message" = inr message ->
  empty_message message = true ->
  handler w req t =
    (inr (json_reply 400
            ("{" +:+ Str.quoted "error" +:+ ":" +:+
             Str.quoted "Message is required" +:+ "}")), t) /\
  fetch_calls (trace_after w req t) = fetch_calls t.
Proof.
  intros Hm Hj Hg He.
  assert (Hf : truthy message = false).
  { destruct message as [| | | |[|]| |]; try discriminate; reflexivity. }
  assert (H : handler w req t = (inr bad_request_reply, t)).
  { apply (handler_return w req t _ t Hm).
    apply (relay_falsy_message w req t parsed message Hj Hg Hf). }
  split; [exact H|]. unfold trace_after. rewrite H. reflexivity.
Qed.

(** The three cases of C1 on [{}], [{"message":null}] and
    [{"message":EmptyString}]. *)
Lemma empty_message_rejected_witness :
  let rejected := (inr bad_request_reply, []) in
  handler Sample.unconfigured (Sample.post (JObject [])) [] = rejected /\
  handler Sample.unconfigured (Sample.post (Sample.body_with JNull)) [] = rejected /\
  handler Sample.unconfigured
          (Sample.post (Sample.body_with (JString EmptyString))) [] = rejected.
Proof.
  cbv zeta. split; [|split].
  - refine (proj1 (empty_message_rejected Sample.unconfigured
                     (Sample.post (JObject [])) []
                     (JObject []) JUndefined _ eq_refl eq_refl eq_refl)).
    discriminate.
  - refine (proj1 (empty_message_rejected Sample.unconfigured
                     (Sample.post (Sample.body_with JNull)) []
                     (Sample.body_with JNull) JNull _ eq_refl eq_refl eq_refl)).
    discriminate.
  - refine (proj1 (empty_message_rejected Sample.unconfigured
                     (Sample.post (Sample.body_with (JString EmptyString))) []
                     (Sample.body_with (JString EmptyString)) (JString EmptyString)
                     _ eq_refl eq_refl eq_refl)).
    discriminate.
Defined.

(** C1 as stated fails on a whitespace-only message: [" "] is truthy,
    so the request [{"message":" "}] passes the check, is sent upstream
    and is answered with status 200. *)
Lemma whitespace_message_not_rejected :
  let w := Sample.answering 200 (Sample.candidates_payload "Hi there!") in
  let req := Sample.post (Sample.body_with (JString " ")) in
  blank_message (JString " ") = true /\
  handler w req [] =
    (inr (json_reply 200 (json_object1 "response" "Hi there!")),
     [FetchCall (upstream_request (Some "secret") (JString " "));
      ConsoleLog [LogText "Gemini API response:";
                  LogValue (Sample.candidates_payload "Hi there!")]]) /\
  reply w req [] <> inr bad_request_reply /\
  fetch_calls (trace_after w req []) <> [].
Proof.
  cbv zeta. split; [reflexivity|].
  assert (H : handler (Sample.answering 200 (Sample.candidates_payload "Hi there!"))
                      (Sample.post (Sample.body_with (JString " "))) [] =
              (inr (json_reply 200 (json_object1 "response" "Hi there!")),
               [FetchCall (upstream_request (Some "secret") (JString " "));
                ConsoleLog [LogText "Gemini API response:";
                            LogValue (Sample.candidates_payload "Hi there!")]]))
    by (vm_compute; reflexivity).
  split; [exact H|]. unfold reply, trace_after. rewrite H. cbn [fst snd fetch_calls].
  split; [|discriminate].
  intros Heq. injection Heq as Heq. discriminate Heq.
Qed.

(** C10.  Whatever falsy value [message] has (absent, null, the empty
    string, the number 0, the boolean [false]), a request that is not
    the preflight gets status 400 and the body
    [{"error":"Message is required"}], and the upstream API is not
    called. *)
Theorem falsy_message_rejected
    (w : World) (req : Request) (t : list Event) (parsed message : JSValue) :
  method req <> "OPTIONS" ->
  json req = inr parsed ->
  get_member parsed "message" = inr message ->
  truthy message = false ->
  handler w req t =
    (inr (json_reply 400
            ("{" +:+ Str.quoted "error" +:+ ":" +:+
             Str.quoted "Message is required" +:+ "}")), t) /\
  fetch_calls (trace_after w req t) = fetch_calls t.
Proof.
  intros Hm Hj Hg Hf.
  assert (H : handler w req t = (inr bad_request_reply, t)).
  { apply (handler_return w req t _ t Hm).
    apply (relay_falsy_message w req t parsed message Hj Hg Hf). }
  split; [exact H|]. unfold trace_after. rewrite H. reflexivity.
Qed.

(** C10 on [{"message":0}] and [{"message":false}], with the key
    configured and the upstream ready to answer. *)
Lemma falsy_message_rejected_witness :
  let w := Sample.answering 200 (Sample.candidates_payload "Hi there!") in
  handler w (Sample.post (Sample.body_with (JNumber (S754_zero false)))) [] =
    (inr bad_request_reply, []) /\
  handler w (Sample.post (Sample.body_with (JBool false))) [] =
    (inr bad_request_reply, []).
Proof.
  cbv zeta. split.
  - refine (proj1 (falsy_message_rejected _
                     (Sample.post (Sample.body_with (JNumber (S754_zero false)))) []
                     (Sample.body_with (JNumber (S754_zero false)))
                     (JNumber (S754_zero false)) _ eq_refl eq_refl eq_refl)).
    discriminate.
  - refine (proj1 (falsy_message_rejected _
                     (Sample.post (Sample.body_with (JBool false))) []
                     (Sample.body_with (JBool false)) (JBool false)
                     _ eq_refl eq_refl eq_refl)).
    discriminate.
Defined.

(** ** The preflight and the method *)

(** C6.  A request whose method is OPTIONS gets status 200, the plain
    text body [ok] and the CORS headers, whatever its body, the
    environment and the upstream are; the trace is left as it was, so
    nothing is parsed, validated, read or sent before the reply. *)
Theorem preflight_first (w : World) (req : Request) (t : list Event) :
  method req = "OPTIONS" ->
  handler w req t = (inr preflight_reply, t) /\
  status preflight_reply = 200 /\
  body preflight_reply = "ok" /\
  Headers.get (headers preflight_reply) "Access-Control-Allow-Origin" = Some "*" /\
  Headers.get (headers preflight_reply) "Access-Control-Allow-Headers" =
    Some "authorization, x-client-info, apikey, content-type" /\
  Headers.get (headers preflight_reply) "Content-Type" =
    Some "text/plain;charset=UTF-8".
Proof.
  intros Hm. split; [apply handler_preflight; exact Hm|].
  split; [reflexivity|]. split; [reflexivity|].
  exact text_header_map_get.
Qed.

(** C6 on a preflight with no readable body, with no key configured. *)
Lemma preflight_first_witness :
  handler Sample.unconfigured
          (mkRequest "OPTIONS" (inl (SyntaxError "Unexpected end of JSON input"))) [] =
    (inr preflight_reply, []).
Proof.
  exact (proj1 (preflight_first Sample.unconfigured
                  (mkRequest "OPTIONS" (inl (SyntaxError "Unexpected end of JSON input")))
                  [] eq_refl)).
Defined.

(** Once past the test against OPTIONS, the handler does not look at
    the method again. *)
Lemma method_not_read
    (w : World) (m : string) (parsed : Outcome JSValue) (t : list Event) :
  m <> "OPTIONS" ->
  handler w (mkRequest m parsed) t = handler w (mkRequest "POST" parsed) t.
Proof.
  intros Hm. rewrite (handler_try w (mkRequest m parsed) t Hm).
  rewrite (handler_try w (mkRequest "POST" parsed) t); [reflexivity|discriminate].
Qed.

(** C9 (as the code has it).  The handler tests the method against
    OPTIONS and nothing else.  A request with another method whose body
    the runtime hands over (any method but GET and HEAD) is processed as
    the same body sent with POST.  A GET or HEAD request reaches the
    handler without a body, whatever it carried: [req.json()] throws and
    the reply is the 500 one. *)
Theorem method_matters_only_through_the_body
    (w : World) (m : string) (sent : Outcome JSValue) (t : list Event) :
  m <> "OPTIONS" ->
  handler w (incoming (mkArrival m sent)) t =
    if exposes_body m
    then handler w (incoming (mkArrival "POST" sent)) t
    else (inr error_reply,
          t ++ [ConsoleError [LogText "Error in chat-with-ai function:";
                              LogError no_body]]).
Proof.
  intros Hm. unfold incoming. cbn [wire_method wire_json].
  change (exposes_body "POST") with true. cbv iota.
  destruct (exposes_body m).
  - apply method_not_read. exact Hm.
  - apply (handler_catch w (mkRequest m (inl no_body)) t no_body t Hm).
    apply relay_body_throws. reflexivity.
Qed.

(** C9 on DELETE and on GET, each carrying [{"message":"Hello"}]. *)
Lemma method_matters_only_through_the_body_witness :
  let w := Sample.answering 200 (Sample.candidates_payload "Hi there!") in
  let sent := inr (Sample.body_with (JString "Hello")) in
  handler w (incoming (mkArrival "DELETE" sent)) [] =
    handler w (incoming (mkArrival "POST" sent)) [] /\
  reply w (incoming (mkArrival "GET" sent)) [] = inr error_reply.
Proof.
  cbv zeta. split.
  - refine (method_matters_only_through_the_body _ "DELETE" _ [] _). discriminate.
  - refine (f_equal fst (method_matters_only_through_the_body _ "GET" _ [] _)).
    discriminate.
Defined.

(** C9 as stated fails on its own example: a GET that carries
    [{"message":"Hello"}] is answered with status 500, while the same
    body sent with POST is relayed and answered with status 200. *)
Lemma get_is_not_processed_as_post :
  let w := Sample.answering 200 (Sample.candidates_payload "Hi there!") in
  let sent := inr (Sample.body_with (JString "Hello")) in
  reply w (incoming (mkArrival "GET" sent)) [] = inr error_reply /\
  reply w (incoming (mkArrival "POST" sent)) [] =
    inr (json_reply 200 (json_object1 "response" "Hi there!")) /\
  reply w (incoming (mkArrival "GET" sent)) [] <>
    reply w (incoming (mkArrival "POST" sent)) [] /\
  fetch_calls (trace_after w (incoming (mkArrival "GET" sent)) []) = [].
Proof.
  cbv zeta.
  assert (Hget : reply (Sample.answering 200 (Sample.candidates_payload "Hi there!"))
                       (incoming (mkArrival "GET"
                                    (inr (Sample.body_with (JString "Hello"))))) [] =
                 inr error_reply) by (vm_compute; reflexivity).
  assert (Hpost : reply (Sample.answering 200 (Sample.candidates_payload "Hi there!"))
                        (incoming (mkArrival "POST"
                                     (inr (Sample.body_with (JString "Hello"))))) [] =
                  inr (json_reply 200 (json_object1 "response" "Hi there!")))
    by (vm_compute; reflexivity).
  split; [exact Hget|]. split; [exact Hpost|]. split.
  - rewrite Hget, Hpost. intros H. injection H as H. discriminate H.
  - vm_compute. reflexivity.
Qed.

(** ** The credential *)

(** C7.  For a request that is not the preflight and carries a truthy
    message (a non-empty string in particular), if GEMINI_API_KEY is not
    in the environment the handler answers with status 200 and a
    [response] that is one fixed sentence, which names the configuration
    and the administrator; it logs one line and calls no upstream. *)
Theorem missing_key_guidance
    (w : World) (req : Request) (t : list Event) (parsed message : JSValue) :
  method req <> "OPTIONS" ->
  json req = inr parsed ->
  get_member parsed "message" = inr message ->
  truthy message = true ->
  env w !! "GEMINI_API_KEY" = None ->
  handler w req t =
    (inr (json_reply 200 (json_object1 "response" not_configured)),
     t ++ [ConsoleError [LogText "GEMINI_API_KEY not found in environment variables"]]) /\
  Str.includes not_configured "configured" = true /\
  Str.includes not_configured "administrator" = true /\
  fetch_calls (trace_after w req t) = fetch_calls t.
Proof.
  intros Hm Hj Hg Ht Hk.
  assert (H : handler w req t =
              (inr not_configured_reply,
               t ++ [ConsoleError [LogText "GEMINI_API_KEY not found in environment variables"]])).
  { apply (handler_return w req t _ _ Hm).
    apply (relay_no_key w req t parsed message Hj Hg Ht).
    unfold Deno_env_get. rewrite Hk. reflexivity. }
  split; [exact H|]. split; [vm_compute; reflexivity|].
  split; [vm_compute; reflexivity|].
  unfold trace_after. rewrite H. cbn [snd].
  rewrite fetch_calls_app. cbn [fetch_calls]. apply app_nil_r.
Qed.

(** C7 on [{"message":"Hello"}] with an empty environment. *)
Lemma missing_key_guidance_witness :
  handler Sample.unconfigured Sample.hello [] =
    (inr not_configured_reply,
     [ConsoleError [LogText "GEMINI_API_KEY not found in environment variables"]]).
Proof.
  refine (proj1 (missing_key_guidance Sample.unconfigured Sample.hello []
                   (Sample.body_with (JString "Hello")) (JString "Hello")
                   _ eq_refl eq_refl eq_refl eq_refl)).
  discriminate.
Defined.

(** ** Headers *)

(** C3 (as the code has it).  Every run of the handler ends in a reply,
    never in an exception, and the reply carries both CORS headers.  Its
    content type is [application/json] on every path but the preflight,
    whose body is text and whose content type is
    [text/plain;charset=UTF-8]. *)
Theorem reply_headers (w : World) (req : Request) (t : list Event) :
  exists r t',
    handler w req t = (inr r, t') /\
    Headers.get (headers r) "Access-Control-Allow-Origin" = Some "*" /\
    Headers.get (headers r) "Access-Control-Allow-Headers" =
      Some "authorization, x-client-info, apikey, content-type" /\
    Headers.get (headers r) "Content-Type" =
      Some (if String.eqb (method req) "OPTIONS"
            then "text/plain;charset=UTF-8" else "application/json").
Proof.
  destruct (String.eqb_spec (method req) "OPTIONS") as [Hm|Hm].
  - exists preflight_reply, t. split; [apply handler_preflight; exact Hm|].
    exact text_header_map_get.
  - destruct (handler_json_reply w req t Hm) as (code & text & t' & H).
    exists (json_reply code text), t'. split; [exact H|].
    exact json_header_map_get.
Qed.

(** C3 as stated fails on the preflight path: the reply to OPTIONS has
    the content type of its text body, not [application/json]. *)
Lemma preflight_content_type_not_json :
  let req := mkRequest "OPTIONS" (inr (Sample.body_with (JString "Hello"))) in
  exists r,
    handler Sample.unconfigured req [] = (inr r, []) /\
    Headers.get (headers r) "Content-Type" = Some "text/plain;charset=UTF-8" /\
    Headers.get (headers r) "Content-Type" <> Some "application/json".
Proof.
  cbv zeta. exists preflight_reply.
  split; [apply handler_preflight; reflexivity|].
  split; [vm_compute; reflexivity|].
  vm_compute. discriminate.
Qed.

(** ** Failures *)

(** C4.  Whatever throws inside the [try] block (parsing the request
    body, the upstream call, an upstream status outside 200-299, parsing
    the upstream body, extracting the text), the handler answers with
    status 500 and the body
    [{"response":"I'm sorry, I encountered an error while processing
    your message. Please try again."}].  The field is [response]; the
    reply is one value for every failure, so a malformed request body
    and an upstream failure cannot be told apart by status or body. *)
Theorem failure_reply (w : World) (req : Request) (t : list Event) (e : JSError) :
  method req <> "OPTIONS" ->
  failure w req e ->
  reply w req t =
    inr (json_reply 500
           ("{" +:+ Str.quoted "response" +:+ ":" +:+
            Str.quoted "I'm sorry, I encountered an error while processing your message. Please try again." +:+
            "}")) /\
  last (trace_after w req t) =
    Some (ConsoleError [LogText "Error in chat-with-ai function:"; LogError e]).
Proof.
  intros Hm Hf.
  assert (H : exists t', relay w req t = (inl e, t')).
  { destruct Hf as [e Hj | parsed e Hj Hg | message e Hr Hu | message r Hr Hu Hok
                   | message r e Hr Hu Hok Hp | message r data e Hr Hu Hok Hp Hx].
    - eexists. apply (relay_body_throws w req t e Hj).
    - eexists. apply (relay_destructure_throws w req t parsed e Hj Hg).
    - rewrite (relay_upstream w req t message Hr). cbv zeta. rewrite Hu. eauto.
    - rewrite (relay_upstream w req t message Hr). cbv zeta. rewrite Hu, Hok. eauto.
    - rewrite (relay_upstream w req t message Hr). cbv zeta. rewrite Hu, Hok, Hp. eauto.
    - rewrite (relay_upstream w req t message Hr). cbv zeta. rewrite Hu, Hok, Hp, Hx. eauto. }
  destruct H as [t' H].
  unfold reply, trace_after. rewrite (handler_catch w req t e t' Hm H). cbn [fst snd].
  split; [reflexivity|]. apply last_snoc.
Qed.

(** C4 on a request with a malformed body and on a well-formed request
    whose upstream call fails: the two replies are the same. *)
Lemma failure_reply_witness :
  let bad := mkRequest "POST" (inl (SyntaxError "Unexpected token")) in
  reply Sample.unconfigured bad [] = inr error_reply /\
  reply Sample.unreachable Sample.hello [] = inr error_reply /\
  reply Sample.unconfigured bad [] = reply Sample.unreachable Sample.hello [].
Proof.
  cbv zeta.
  assert (Hbad : reply Sample.unconfigured
                       (mkRequest "POST" (inl (SyntaxError "Unexpected token"))) [] =
                 inr error_reply).
  { refine (proj1 (failure_reply Sample.unconfigured _ [] (SyntaxError "Unexpected token") _ _)).
    - discriminate.
    - apply body_parsing. reflexivity. }
  assert (Hnet : reply Sample.unreachable Sample.hello [] = inr error_reply).
  { refine (proj1 (failure_reply Sample.unreachable Sample.hello []
                     (TypeError "error sending request") _ _)).
    - discriminate.
    - apply (network_call _ _ (JString "Hello")).
      + split; [exists (Sample.body_with (JString "Hello")); split; reflexivity
               | reflexivity | reflexivity].
      + reflexivity. }
  split; [exact Hbad|]. split; [exact Hnet|].
  rewrite Hbad, Hnet. reflexivity.
Defined.

(** ** The upstream answer *)

(** C5.  For a request that is not the preflight, with a truthy message
    and the key configured, when the upstream answers with a status in
    200-299 and a payload of the documented shape, the handler answers
    with status 200 and the body [{"response": text}], where [text] is
    the string at [candidates[0].content.parts[0].text], written as a
    JSON string. *)
Theorem candidate_text_relayed
    (w : World) (req : Request) (t : list Event)
    (message data : JSValue) (r : UpstreamResponse) (text : string) :
  method req <> "OPTIONS" ->
  reaches_upstream w req message ->
  upstream w (upstream_request (Deno_env_get w "GEMINI_API_KEY") message) = inr r ->
  ok r = true ->
  up_json r = inr data ->
  candidate_text data = Some text ->
  reply w req t =
    inr (json_reply 200
           ("{" +:+ Str.quoted "response" +:+ ":" +:+ JSON.quote text +:+ "}")) /\
  JSON.stringify (JObject [("response", JString text)]) =
    Some ("{" +:+ Str.quoted "response" +:+ ":" +:+ JSON.quote text +:+ "}").
Proof.
  intros Hm Hr Hu Hok Hp Hc.
  split; [|reflexivity].
  unfold reply.
  erewrite handler_return; [| exact Hm |].
  2:{ rewrite (relay_upstream w req t message Hr). cbv zeta.
      rewrite Hu, Hok, Hp, (extract_candidate_text data text Hc). reflexivity. }
  reflexivity.
Qed.

(** C5 on the end-to-end scenario: [{"message":"Hello"}] against an
    upstream that returns
    [{"candidates":[{"content":{"parts":[{"text":"Hi there!"}]}}]}]
    yields [{"response":"Hi there!"}] with status 200. *)
Lemma candidate_text_relayed_witness :
  reply (Sample.answering 200 (Sample.candidates_payload "Hi there!")) Sample.hello [] =
    inr (json_reply 200 (json_object1 "response" "Hi there!")).
Proof.
  refine (proj1 (candidate_text_relayed
                   (Sample.answering 200 (Sample.candidates_payload "Hi there!"))
                   Sample.hello [] (JString "Hello")
                   (Sample.candidates_payload "Hi there!")
                   (mkUpstream 200 (inr (Sample.candidates_payload "Hi there!")))
                   "Hi there!" _ _ eq_refl eq_refl eq_refl eq_refl)).
  - discriminate.
  - split; [exists (Sample.body_with (JString "Hello")); split; reflexivity
           | reflexivity | reflexivity].
Defined.

(** X24.  The three levels that line 66 guards.  For a request that
    reaches the upstream call, when the upstream answers with a status
    in 200-299 and a payload, other than [null], in which [candidates],
    [candidates[0]] or [candidates[0].content] is absent or falsy (no
    candidates, an empty list of candidates, a candidate without
    content), the handler answers with status 200 and the fallback
    sentence as [response]. *)
Theorem missing_content_falls_back
    (w : World) (req : Request) (t : list Event)
    (message data : JSValue) (r : UpstreamResponse) :
  method req <> "OPTIONS" ->
  reaches_upstream w req message ->
  upstream w (upstream_request (Deno_env_get w "GEMINI_API_KEY") message) = inr r ->
  ok r = true ->
  up_json r = inr data ->
  no_content data ->
  reply w req t =
    inr (json_reply 200
           ("{" +:+ Str.quoted "response" +:+ ":" +:+
            Str.quoted "I'm sorry, I couldn't generate a response at this time." +:+
            "}")).
Proof.
  intros Hm Hr Hu Hok Hp Hn.
  unfold reply.
  erewrite handler_return; [| exact Hm |].
  2:{ rewrite (relay_upstream w req t message Hr). cbv zeta.
      rewrite Hu, Hok, Hp, (extract_no_content data Hn). reflexivity. }
  reflexivity.
Qed.

(** X24 on the payloads [{}], [{"candidates":[]}] and
    [{"candidates":[{}]}]. *)
Lemma missing_content_falls_back_witness :
  reply (Sample.answering 200 (JObject [])) Sample.hello [] = inr fallback_reply /\
  reply (Sample.answering 200 Sample.no_candidates_payload) Sample.hello [] =
    inr fallback_reply /\
  reply (Sample.answering 200 (JObject [("candidates", JArray [JObject []])]))
        Sample.hello [] = inr fallback_reply.
Proof.
  assert (Hr : forall data, reaches_upstream (Sample.answering 200 data) Sample.hello
                                             (JString "Hello")).
  { intros data.
    split; [exists (Sample.body_with (JString "Hello")); split; reflexivity
           | reflexivity | reflexivity]. }
  assert (Hm : method Sample.hello <> "OPTIONS") by discriminate.
  split; [|split].
  - refine (missing_content_falls_back _ Sample.hello [] (JString "Hello") (JObject [])
              (mkUpstream 200 (inr (JObject []))) Hm (Hr _) eq_refl eq_refl eq_refl _).
    apply (no_candidates _ JUndefined); reflexivity.
  - refine (missing_content_falls_back _ Sample.hello [] (JString "Hello")
              Sample.no_candidates_payload
              (mkUpstream 200 (inr Sample.no_candidates_payload))
              Hm (Hr _) eq_refl eq_refl eq_refl _).
    apply (no_first_candidate _ (JArray []) JUndefined); reflexivity.
  - refine (missing_content_falls_back _ Sample.hello [] (JString "Hello")
              (JObject [("candidates", JArray [JObject []])])
              (mkUpstream 200 (inr (JObject [("candidates", JArray [JObject []])])))
              Hm (Hr _) eq_refl eq_refl eq_refl _).
    apply (no_candidate_content _ (JArray [JObject []]) (JObject []) JUndefined);
      reflexivity.
Defined.

(** C2.  The handler at a successful upstream answer whose candidate
    has a content and no [parts], [{"candidates":[{"content":{}}]}]: the
    path to the text is absent, yet the condition of line 66 holds,
    [content.parts[0]] is read without a guard and throws, and the reply
    is the 500 one, not the fallback sentence with status 200 that
    lines 64-68 give when a level above is missing. *)
Lemma missing_parts_is_an_error :
  let w := Sample.answering 200 Sample.no_parts_payload in
  ok (mkUpstream 200 (inr Sample.no_parts_payload)) = true /\
  candidate_text Sample.no_parts_payload = None /\
  reply w Sample.hello [] = inr error_reply /\
  reply w Sample.hello [] <> inr fallback_reply /\
  status error_reply = 500.
Proof.
  cbv zeta. split; [reflexivity|]. split; [reflexivity|].
  assert (H : reply (Sample.answering 200 Sample.no_parts_payload) Sample.hello [] =
              inr error_reply) by (vm_compute; reflexivity).
  split; [exact H|]. split; [|reflexivity].
  rewrite H. intros Heq. injection Heq as Heq. discriminate Heq.
Qed.

(** ** Independence of invocations *)

Ltac unfold_shared :=
  unfold Shared.reply_on, Shared.handler, Shared.try_catch, Shared.relay,
         Shared.on_error, Shared.json_init, Shared.read, Shared.emit,
         Shared.fetch, Shared.lift, Shared.throw,
         mbind, Shared.S_bind, mret, Shared.S_ret.

(** Case analysis on everything a run of the handler depends on. *)
Ltac split_run :=
  repeat (cbv beta iota zeta; cbn [fst snd negb];
          match goal with
          | |- context [String.eqb (method ?r) ?m] => destruct (String.eqb (method r) m)
          | |- context [match json ?r with _ => _ end] =>
              let o := fresh "o" in destruct (json r) as [o|o]
          | |- context [match destructure ?v ?k with _ => _ end] =>
              let o := fresh "o" in destruct (destructure v k) as [o|o]
          | |- context [truthy ?v] => destruct (truthy v)
          | |- context [truthy_string ?v] => destruct (truthy_string v)
          | |- context [match upstream ?w ?r with _ => _ end] =>
              let o := fresh "o" in destruct (upstream w r) as [o|o]
          | |- context [ok ?r] => destruct (ok r)
          | |- context [match up_json ?r with _ => _ end] =>
              let o := fresh "o" in destruct (up_json r) as [o|o]
          | |- context [match extract_response ?v with _ => _ end] =>
              let o := fresh "o" in destruct (extract_response v) as [o|o]
          end);
  cbv beta iota zeta; cbn [fst snd negb].

(** A run of the handler leaves the store as it found it, and its reply
    depends on the store and not on the trace. *)
Lemma shared_handler_run
    (w : World) (req : Request) (m : Shared.Store) (t : list Event) :
  exists logged,
    Shared.handler w req (m, t) = (Shared.reply_on w req m, (m, t ++ logged)).
Proof.
  unfold_shared. split_run; eexists;
    rewrite <- ?app_assoc; cbn [app]; try reflexivity;
    rewrite app_nil_r; reflexivity.
Qed.

(** On the store of the loaded module, the replies are those of
    [handler]. *)
Lemma shared_handler_loaded (w : World) (req : Request) :
  Shared.reply_on w req Shared.loaded = reply w req [].
Proof.
  unfold reply, handler. run_monad. unfold_shared.
  split_run; reflexivity.
Qed.

(** The handler reads the object at each call: had
    [corsHeaders['Content-Type'] = 'application/json'] been executed in
    place, the next preflight reply would carry that content type. *)
Lemma assignment_reaches_next_reply (w : World) (req : Request) (t : list Event) :
  method req = "OPTIONS" ->
  fst (Shared.handler w req
         (snd (Shared.assign "Content-Type" "application/json" (Shared.loaded, t)))) =
    inr (mkResponse 200 json_header_map "ok") /\
  inr (mkResponse 200 json_header_map "ok") <> Shared.reply_on w req Shared.loaded.
Proof.
  intros Hm. unfold Shared.reply_on, Shared.handler. rewrite Hm.
  split; [vm_compute; reflexivity|].
  vm_compute. intros H. discriminate H.
Qed.

Lemma shared_serve_app
    (w : World) (before after : list Request) (st : Shared.Store * list Event) :
  Shared.serve w (before ++ after) st =
  (fst (Shared.serve w before st) ++
   fst (Shared.serve w after (snd (Shared.serve w before st))),
   snd (Shared.serve w after (snd (Shared.serve w before st)))).
Proof.
  revert st. induction before as [|req before IH]; intros st.
  - cbn. destruct (Shared.serve w after st). reflexivity.
  - cbn [Shared.serve app].
    destruct (Shared.handler w req st) as [r st'].
    rewrite (IH st').
    destruct (Shared.serve w before st') as [rs st''].
    cbn [fst snd]. reflexivity.
Qed.

Lemma shared_serve_store
    (w : World) (reqs : list Request) (m : Shared.Store) (t : list Event) :
  exists t', snd (Shared.serve w reqs (m, t)) = (m, t').
Proof.
  revert t. induction reqs as [|req reqs IH]; intros t.
  - exists t. reflexivity.
  - cbn [Shared.serve].
    destruct (shared_handler_run w req m t) as [logged ->].
    destruct (IH (t ++ logged)) as [t' Ht'].
    destruct (Shared.serve w reqs (m, t ++ logged)) as [rs st].
    exists t'. exact Ht'.
Qed.

(** C8.  The only state of the module that outlives an invocation is
    the object [corsHeaders], and no invocation changes it: whatever the
    object holds and whatever requests were served before, the store
    after serving is the store before, and the same request served twice
    gets twice the same reply (status, headers and body), the one it
    gets when served alone.  On the store of the freshly loaded module
    that reply is the reply of [handler]. *)
Theorem invocations_share_no_state
    (w : World) (before : list Request) (req : Request)
    (m : Shared.Store) (t : list Event) :
  Shared.replies w (before ++ [req; req]) (m, t) =
    Shared.replies w before (m, t) ++
    [Shared.reply_on w req m; Shared.reply_on w req m] /\
  Shared.store_after w (before ++ [req; req]) (m, t) = m /\
  Shared.reply_on w req Shared.loaded = reply w req [].
Proof.
  split; [|split].
  - unfold Shared.replies. rewrite shared_serve_app. cbn [fst]. f_equal.
    destruct (shared_serve_store w before m t) as [t1 ->].
    cbn [Shared.serve].
    destruct (shared_handler_run w req m t1) as [l1 ->].
    destruct (shared_handler_run w req m (t1 ++ l1)) as [l2 ->].
    reflexivity.
  - unfold Shared.store_after.
    destruct (shared_serve_store w (before ++ [req; req]) m t) as [t' ->].
    reflexivity.
  - apply shared_handler_loaded.
Qed.

(** * Further properties of the relay *)

(** ** Which reply, and when *)

(** A reply of the [try] block is the 400 reply to a falsy message, or
    has status 200 and answers a truthy message. *)
Lemma relay_reply_inversion
    (w : World) (req : Request) (t t' : list Event) (r : Response) :
  relay w req t = (inr r, t') ->
  exists parsed message,
    json req = inr parsed /\ get_member parsed "message" = inr message /\
    ((truthy message = false /\ r = bad_request_reply /\ t' = t) \/
     (truthy message = true /\ status r = 200)).
Proof.
  intros H.
  destruct (json req) as [e|parsed] eqn:Hj.
  { rewrite (relay_body_throws w req t e Hj) in H. discriminate. }
  destruct (get_member parsed "message") as [e|message] eqn:Hg.
  { rewrite (relay_destructure_throws w req t parsed _ Hj (destructure_inl _ _ _ Hg)) in H.
    discriminate. }
  exists parsed, message. split; [reflexivity|]. split; [exact Hg|].
  destruct (truthy message) eqn:Ht.
  2:{ rewrite (relay_falsy_message w req t parsed message Hj Hg Ht) in H.
      injection H as <- <-. left. auto. }
  right. split; [reflexivity|].
  destruct (truthy_string (Deno_env_get w "GEMINI_API_KEY")) eqn:Hk.
  2:{ rewrite (relay_no_key w req t parsed message Hj Hg Ht Hk) in H.
      injection H as <- _. reflexivity. }
  assert (Hr : reaches_upstream w req message).
  { split; [exists parsed; auto|assumption|assumption]. }
  rewrite (relay_upstream w req t message Hr) in H. cbv zeta in H.
  destruct (upstream w _) as [e|u]; [discriminate|].
  destruct (ok u); [|discriminate].
  destruct (up_json u) as [e|data]; [discriminate|].
  destruct (extract_response data) as [e|v]; [discriminate|].
  injection H as <- _. reflexivity.
Qed.

(** Each listed failure makes the [try] block throw. *)
Lemma failure_throws (w : World) (req : Request) (t : list Event) (e : JSError) :
  failure w req e -> exists t', relay w req t = (inl e, t').
Proof.
  intros Hf.
  destruct Hf as [e Hj | parsed e Hj Hg | message e Hr Hu | message r Hr Hu Hok
                 | message r e Hr Hu Hok Hp | message r data e Hr Hu Hok Hp Hx].
  - eexists. apply (relay_body_throws w req t e Hj).
  - eexists. apply (relay_destructure_throws w req t parsed e Hj Hg).
  - rewrite (relay_upstream w req t message Hr). cbv zeta. rewrite Hu. eauto.
  - rewrite (relay_upstream w req t message Hr). cbv zeta. rewrite Hu, Hok. eauto.
  - rewrite (relay_upstream w req t message Hr). cbv zeta. rewrite Hu, Hok, Hp. eauto.
  - rewrite (relay_upstream w req t message Hr). cbv zeta. rewrite Hu, Hok, Hp, Hx. eauto.
Qed.

(** X1.  Outside the preflight, the status of the reply is 500 exactly
    when one of the failures of the [try] block occurs; otherwise it is
    200 or 400. *)
Theorem status_500_iff_failure
    (w : World) (req : Request) (t : list Event) (r : Response) :
  method req <> "OPTIONS" ->
  reply w req t = inr r ->
  (status r = 500 <-> exists e, failure w req e) /\
  (status r = 200 \/ status r = 400 \/ status r = 500).
Proof.
  intros Hm Hr. unfold reply in Hr.
  destruct (relay w req t) as [[e|r0] t'] eqn:Hrel.
  - rewrite (handler_catch w req t e t' Hm Hrel) in Hr. injection Hr as <-.
    split; [|auto]. split; [|reflexivity].
    intros _. exists e. apply (relay_throws_failure w req t t' e Hrel).
  - rewrite (handler_return w req t r0 t' Hm Hrel) in Hr. injection Hr as <-.
    destruct (relay_reply_inversion w req t t' r0 Hrel)
      as (parsed & message & Hj & Hg & [(Hf & -> & _)|(Ht & Hs)]).
    + split; [|auto]. split; [discriminate|].
      intros [e Hf']. destruct (failure_throws w req t e Hf') as [t'' H'].
      rewrite H' in Hrel. discriminate.
    + split; [|auto]. split; [rewrite Hs; discriminate|].
      intros [e Hf']. destruct (failure_throws w req t e Hf') as [t'' H'].
      rewrite H' in Hrel. discriminate.
Qed.

(** X1 on a request whose upstream answers 503: the reply has status
    500. *)
Lemma status_500_iff_failure_witness :
  status error_reply = 500 <->
  exists e, failure (Sample.answering 503 JNull) Sample.hello e.
Proof.
  refine (proj1 (status_500_iff_failure (Sample.answering 503 JNull) Sample.hello []
                   error_reply _ _)).
  - discriminate.
  - vm_compute. reflexivity.
Defined.

(** X2.  Outside the preflight, the status of the reply is 400 exactly
    when the body parses and its [message] is falsy: a truthy message is
    never rejected. *)
Theorem status_400_iff_falsy_message
    (w : World) (req : Request) (t : list Event) (r : Response) :
  method req <> "OPTIONS" ->
  reply w req t = inr r ->
  (status r = 400 <->
   exists parsed message,
     json req = inr parsed /\ get_member parsed "message" = inr message /\
     truthy message = false).
Proof.
  intros Hm Hr. unfold reply in Hr.
  destruct (relay w req t) as [[e|r0] t'] eqn:Hrel.
  - rewrite (handler_catch w req t e t' Hm Hrel) in Hr. injection Hr as <-.
    split; [discriminate|].
    intros (parsed & message & Hj & Hg & Hf).
    rewrite (relay_falsy_message w req t parsed message Hj Hg Hf) in Hrel.
    discriminate.
  - rewrite (handler_return w req t r0 t' Hm Hrel) in Hr. injection Hr as <-.
    destruct (relay_reply_inversion w req t t' r0 Hrel)
      as (parsed & message & Hj & Hg & [(Hf & -> & _)|(Ht & Hs)]).
    + split; [|reflexivity]. intros _. exists parsed, message. auto.
    + split; [rewrite Hs; discriminate|].
      intros (parsed' & message' & Hj' & Hg' & Hf').
      rewrite Hj in Hj'. injection Hj' as <-.
      rewrite Hg in Hg'. injection Hg' as <-. congruence.
Qed.

(** X2 on [{"message":"Hello"}] with no key configured: the reply has
    status 200, and the message is not falsy. *)
Lemma status_400_iff_falsy_message_witness :
  status not_configured_reply = 400 <->
  exists parsed message,
    json Sample.hello = inr parsed /\ get_member parsed "message" = inr message /\
    truthy message = false.
Proof.
  refine (status_400_iff_falsy_message Sample.unconfigured Sample.hello []
            not_configured_reply _ _).
  - discriminate.
  - vm_compute. reflexivity.
Defined.

(** X3.  A body that parses to something other than an object has no
    [message]: [null] makes the destructuring throw, which gives the 500
    reply; a number, a string, a boolean or an array gives the 400
    reply. *)
Theorem body_not_an_object
    (w : World) (req : Request) (t : list Event) (parsed : JSValue) :
  method req <> "OPTIONS" ->
  json req = inr parsed ->
  is_object parsed = false ->
  reply w req t = inr (if nullish parsed then error_reply else bad_request_reply).
Proof.
  intros Hm Hj Ho. unfold reply.
  destruct (nullish parsed) eqn:Hn.
  - assert (Hg : exists e, destructure parsed "message" = inl e).
    { destruct parsed; try discriminate; eexists; reflexivity. }
    destruct Hg as [e Hg].
    rewrite (handler_catch w req t e t Hm
               (relay_destructure_throws w req t parsed e Hj Hg)).
    reflexivity.
  - assert (Hg : get_member parsed "message" = inr JUndefined).
    { destruct parsed; try discriminate; reflexivity. }
    rewrite (handler_return w req t bad_request_reply t Hm
               (relay_falsy_message w req t parsed JUndefined Hj Hg eq_refl)).
    reflexivity.
Qed.

(** X3 on the bodies [null] and [[]]. *)
Lemma body_not_an_object_witness :
  reply Sample.unconfigured (Sample.post JNull) [] = inr error_reply /\
  reply Sample.unconfigured (Sample.post (JArray [])) [] = inr bad_request_reply.
Proof.
  split.
  - refine (body_not_an_object Sample.unconfigured (Sample.post JNull) [] JNull
              _ eq_refl eq_refl).
    discriminate.
  - refine (body_not_an_object Sample.unconfigured (Sample.post (JArray [])) []
              (JArray []) _ eq_refl eq_refl).
    discriminate.
Defined.

(** X4.  A key that is set to the empty string counts as missing: the
    handler answers with the guidance sentence and status 200, and
    calls no upstream. *)
Theorem empty_key_counts_as_missing
    (w : World) (req : Request) (t : list Event) (parsed message : JSValue) :
  method req <> "OPTIONS" ->
  json req = inr parsed ->
  get_member parsed "message" = inr message ->
  truthy message = true ->
  env w !! "GEMINI_API_KEY" = Some EmptyString ->
  reply w req t = inr not_configured_reply /\
  fetch_calls (trace_after w req t) = fetch_calls t.
Proof.
  intros Hm Hj Hg Ht Hk.
  assert (H : handler w req t =
              (inr not_configured_reply,
               t ++ [ConsoleError [LogText "GEMINI_API_KEY not found in environment variables"]])).
  { apply (handler_return w req t _ _ Hm).
    apply (relay_no_key w req t parsed message Hj Hg Ht).
    unfold Deno_env_get. rewrite Hk. reflexivity. }
  unfold reply, trace_after. rewrite H. cbn [fst snd].
  split; [reflexivity|].
  rewrite fetch_calls_app. cbn [fetch_calls]. apply app_nil_r.
Qed.

(** X4 on [{"message":"Hello"}] with the key set to the empty string. *)
Lemma empty_key_counts_as_missing_witness :
  let w := mkWorld (<["GEMINI_API_KEY" := EmptyString]> ∅)
                   (fun _ => inr (mkUpstream 200 (inr JNull))) in
  reply w Sample.hello [] = inr not_configured_reply.
Proof.
  refine (proj1 (empty_key_counts_as_missing
                   (mkWorld (<["GEMINI_API_KEY" := EmptyString]> ∅)
                            (fun _ => inr (mkUpstream 200 (inr JNull))))
                   Sample.hello []
                   (Sample.body_with (JString "Hello")) (JString "Hello")
                   _ eq_refl eq_refl eq_refl eq_refl)).
  discriminate.
Defined.

(** ** The upstream call *)

(** The trace of a run that reaches the upstream call: the request goes
    out first, and whatever follows is written on the console. *)
Lemma upstream_run_trace
    (w : World) (req : Request) (t : list Event) (message : JSValue) :
  method req <> "OPTIONS" ->
  reaches_upstream w req message ->
  exists logged,
    trace_after w req t =
      (t ++ [FetchCall (upstream_request (Deno_env_get w "GEMINI_API_KEY") message)])
      ++ logged /\
    fetch_calls logged = [].
Proof.
  intros Hm Hr. unfold trace_after.
  destruct (relay w req t) as [[e|r] t'] eqn:Hrel.
  - rewrite (handler_catch w req t e t' Hm Hrel). cbn [snd].
    rewrite (relay_upstream w req t message Hr) in Hrel. cbv zeta in Hrel.
    destruct (upstream w _) as [e0|u].
    { injection Hrel as _ <-. eexists. split; reflexivity. }
    destruct (ok u).
    2:{ injection Hrel as _ <-. eexists. split; reflexivity. }
    destruct (up_json u) as [e0|data].
    { injection Hrel as _ <-. eexists. split; reflexivity. }
    destruct (extract_response data) as [e0|v]; [|discriminate].
    injection Hrel as _ <-. eexists. rewrite <- app_assoc. split; reflexivity.
  - rewrite (handler_return w req t r t' Hm Hrel). cbn [snd].
    rewrite (relay_upstream w req t message Hr) in Hrel. cbv zeta in Hrel.
    destruct (upstream w _) as [e0|u]; [discriminate|].
    destruct (ok u); [|discriminate].
    destruct (up_json u) as [e0|data]; [discriminate|].
    destruct (extract_response data) as [e0|v]; [discriminate|].
    injection Hrel as _ <-. eexists. split; reflexivity.
Qed.

(** X5.  A request with a truthy message, served with the key [key],
    makes exactly one upstream call: a POST to the endpoint with the key
    appended as it is, the JSON content type, and the message wrapped in
    [{"contents":[{"parts":[{"text": message}]}]}]. *)
Theorem one_upstream_request
    (w : World) (req : Request) (t : list Event)
    (parsed message : JSValue) (key : string) :
  method req <> "OPTIONS" ->
  json req = inr parsed ->
  get_member parsed "message" = inr message ->
  truthy message = true ->
  env w !! "GEMINI_API_KEY" = Some key ->
  key <> EmptyString ->
  fetch_calls (trace_after w req t) =
    fetch_calls t ++
    [mkFetch (endpoint +:+ key) "POST" [("Content-Type", "application/json")]
             (JSON.stringify (JObject [("contents",
                JArray [JObject [("parts",
                  JArray [JObject [("text", message)]])]])]))].
Proof.
  intros Hm Hj Hg Ht Hk Hne.
  assert (Hr : reaches_upstream w req message).
  { split; [exists parsed; auto|assumption|].
    unfold Deno_env_get. rewrite Hk. destruct key; [contradiction|reflexivity]. }
  destruct (upstream_run_trace w req t message Hm Hr) as (logged & -> & Hl).
  rewrite !fetch_calls_app, Hl, app_nil_r. cbn [fetch_calls].
  unfold upstream_request, Deno_env_get. rewrite Hk. reflexivity.
Qed.

(** X5 on [{"message":"Hello"}] with the key [secret]. *)
Lemma one_upstream_request_witness :
  fetch_calls (trace_after (Sample.answering 200 (Sample.candidates_payload "Hi there!"))
                           Sample.hello []) =
    [mkFetch (endpoint +:+ "secret") "POST" [("Content-Type", "application/json")]
             (JSON.stringify (envelope (JString "Hello")))].
Proof.
  refine (one_upstream_request
            (Sample.answering 200 (Sample.candidates_payload "Hi there!"))
            Sample.hello [] (Sample.body_with (JString "Hello")) (JString "Hello")
            "secret" _ eq_refl eq_refl eq_refl eq_refl _); discriminate.
Defined.

(** X6.  No run makes more than one upstream call, and a run makes one
    only for a request that is not the preflight, whose body parses,
    whose message is truthy, with the key configured. *)
Theorem at_most_one_upstream_call (w : World) (req : Request) (t : list Event) :
  fetch_calls (trace_after w req t) = fetch_calls t \/
  exists message,
    method req <> "OPTIONS" /\
    reaches_upstream w req message /\
    fetch_calls (trace_after w req t) =
      fetch_calls t ++
      [upstream_request (Deno_env_get w "GEMINI_API_KEY") message].
Proof.
  destruct (String.eqb_spec (method req) "OPTIONS") as [Hm|Hm].
  { left. unfold trace_after. rewrite (handler_preflight w req t Hm). reflexivity. }
  destruct (json req) as [e|parsed] eqn:Hj.
  { left. unfold trace_after.
    rewrite (handler_catch w req t e t Hm (relay_body_throws w req t e Hj)).
    cbn [snd]. rewrite fetch_calls_app. apply app_nil_r. }
  destruct (get_member parsed "message") as [e|message] eqn:Hg.
  { left. unfold trace_after.
    rewrite (handler_catch w req t _ t Hm
               (relay_destructure_throws w req t parsed _ Hj
                  (destructure_inl _ _ _ Hg))).
    cbn [snd]. rewrite fetch_calls_app. apply app_nil_r. }
  destruct (truthy message) eqn:Ht.
  2:{ left. unfold trace_after.
      rewrite (handler_return w req t _ t Hm
                 (relay_falsy_message w req t parsed message Hj Hg Ht)).
      reflexivity. }
  destruct (truthy_string (Deno_env_get w "GEMINI_API_KEY")) eqn:Hk.
  2:{ left. unfold trace_after.
      rewrite (handler_return w req t _ _ Hm
                 (relay_no_key w req t parsed message Hj Hg Ht Hk)).
      cbn [snd]. rewrite fetch_calls_app. apply app_nil_r. }
  right. exists message.
  assert (Hr : reaches_upstream w req message).
  { split; [exists parsed; auto|assumption|assumption]. }
  split; [exact Hm|]. split; [exact Hr|].
  destruct (upstream_run_trace w req t message Hm Hr) as (logged & -> & Hl).
  rewrite !fetch_calls_app, Hl, app_nil_r. reflexivity.
Qed.

(** ** The text that is relayed *)

(** With a truthy content, the condition of line 66 holds and the text
    is read from that content. *)
Lemma extract_through_content (data content : JSValue) :
  first_content data = inr content ->
  truthy content = true ->
  extract_response data =
    (parts ← get_member content "parts";
     part ← get_index parts 0;
     get_member part "text").
Proof.
  intros Hc Ht.
  assert (Hh : has_content data = inr content).
  { unfold has_content, first_content, first_candidate in *.
    unfold mbind, Outcome_bind, mret, Outcome_ret in *.
    destruct (get_member data "candidates") as [e|c]; [discriminate|].
    destruct (get_index c 0) as [e|c0] eqn:H0.
    { discriminate. }
    assert (Hc0 : truthy c0 = true).
    { destruct c0 as [| |[|]|x|[|a s]|items|props]; try reflexivity;
        cbn in Hc; try discriminate; injection Hc as <-; discriminate. }
    assert (Hcc : truthy c = true).
    { destruct c as [| |[|]|x|[|a s]|items|props]; try reflexivity;
        cbn in H0; try discriminate; injection H0 as <-; discriminate. }
    rewrite Hcc, Hc0. exact Hc. }
  unfold extract_response. unfold mbind at 1. unfold Outcome_bind at 1.
  rewrite Hh, Ht. unfold mbind at 1. unfold Outcome_bind at 1. rewrite Hc.
  reflexivity.
Qed.

(** X7.  When the upstream payload has a truthy content, whatever value
    [v] sits at [parts[0].text] is relayed with status 200 as
    [JSON.stringify({ response: v })]: a value that is not a string is
    written as its JSON text, and when there is no [text] the body is
    [{}], with no [response] field. *)
Theorem text_relayed_as_it_is
    (w : World) (req : Request) (t : list Event)
    (message data content parts part v : JSValue) (r : UpstreamResponse) :
  method req <> "OPTIONS" ->
  reaches_upstream w req message ->
  upstream w (upstream_request (Deno_env_get w "GEMINI_API_KEY") message) = inr r ->
  ok r = true ->
  up_json r = inr data ->
  first_content data = inr content ->
  truthy content = true ->
  get_member content "parts" = inr parts ->
  get_index parts 0 = inr part ->
  get_member part "text" = inr v ->
  reply w req t =
    inr (json_reply 200
           (default EmptyString (JSON.stringify (JObject [("response", v)])))) /\
  (v = JUndefined ->
   reply w req t = inr (json_reply 200 "{}")).
Proof.
  intros Hm Hr Hu Hok Hp Hc Ht Hparts Hpart Hv.
  assert (H : reply w req t =
              inr (json_reply 200
                     (default EmptyString
                        (JSON.stringify (JObject [("response", v)]))))).
  { unfold reply.
    erewrite handler_return; [| exact Hm |].
    2:{ rewrite (relay_upstream w req t message Hr). cbv zeta.
        rewrite Hu, Hok, Hp, (extract_through_content data content Hc Ht).
        unfold mbind, Outcome_bind. rewrite Hparts, Hpart, Hv. reflexivity. }
    reflexivity. }
  split; [exact H|]. intros ->. exact H.
Qed.

(** X7 on [{"candidates":[{"content":{"parts":[{}]}}]}], where the part
    has no text, and on a part whose text is the number 42. *)
Lemma text_relayed_as_it_is_witness :
  let no_text :=
    JObject [("candidates",
      JArray [JObject [("content", JObject [("parts", JArray [JObject []])])]])] in
  let forty_two := JNumber (S754_finite false 5910974510923776 (-47)) in
  let numeric :=
    JObject [("candidates",
      JArray [JObject [("content",
        JObject [("parts", JArray [JObject [("text", forty_two)]])])]])] in
  reply (Sample.answering 200 no_text) Sample.hello [] = inr (json_reply 200 "{}") /\
  reply (Sample.answering 200 numeric) Sample.hello [] =
    inr (json_reply 200 ("{" +:+ Str.quoted "response" +:+ ":42}")).
Proof.
  cbv zeta.
  assert (Hr : forall data, reaches_upstream (Sample.answering 200 data) Sample.hello
                                             (JString "Hello")).
  { intros data.
    split; [exists (Sample.body_with (JString "Hello")); split; reflexivity
           | reflexivity | reflexivity]. }
  assert (Hm : method Sample.hello <> "OPTIONS") by discriminate.
  pose (no_text :=
    JObject [("candidates",
      JArray [JObject [("content", JObject [("parts", JArray [JObject []])])]])]).
  pose (forty_two := JNumber (S754_finite false 5910974510923776 (-47))).
  pose (numeric :=
    JObject [("candidates",
      JArray [JObject [("content",
        JObject [("parts", JArray [JObject [("text", forty_two)]])])]])]).
  split.
  - refine (proj1 (text_relayed_as_it_is (Sample.answering 200 no_text)
                     Sample.hello [] (JString "Hello") no_text
                     (JObject [("parts", JArray [JObject []])])
                     (JArray [JObject []]) (JObject []) JUndefined
                     (mkUpstream 200 (inr no_text))
                     Hm (Hr _) eq_refl eq_refl eq_refl eq_refl eq_refl
                     eq_refl eq_refl eq_refl)).
  - refine (proj1 (text_relayed_as_it_is (Sample.answering 200 numeric)
                     Sample.hello [] (JString "Hello") numeric
                     (JObject [("parts", JArray [JObject [("text", forty_two)]])])
                     (JArray [JObject [("text", forty_two)]])
                     (JObject [("text", forty_two)]) forty_two
                     (mkUpstream 200 (inr numeric))
                     Hm (Hr _) eq_refl eq_refl eq_refl eq_refl eq_refl
                     eq_refl eq_refl eq_refl)).
Defined.

(** ** The body determines the text *)

Lemma string_append_assoc (a b c : string) :
  (a +:+ b) +:+ c = a +:+ (b +:+ c).
Proof.
  induction a as [|x a IH]; [reflexivity|].
  change (String x ((a +:+ b) +:+ c) = String x (a +:+ (b +:+ c))).
  rewrite IH. reflexivity.
Qed.

(** Reading the head of an escaped text gives back the code unit that
    was escaped. *)
Lemma unescape_head_escape (c : ascii) (rest : string) :
  unescape_head (JSON.escape_char c +:+ rest) = Some (c, rest).
Proof.
  destruct c as [b0 b1 b2 b3 b4 b5 b6 b7].
  destruct b0, b1, b2, b3, b4, b5, b6, b7; reflexivity.
Qed.

Lemma escape_append_inj (a b rest : string) :
  unescape_head rest = None ->
  JSON.escape a +:+ rest = JSON.escape b +:+ rest ->
  a = b.
Proof.
  intros Hrest. revert b.
  induction a as [|x a IH]; intros [|y b] H.
  - reflexivity.
  - exfalso.
    change (rest = (JSON.escape_char y +:+ JSON.escape b) +:+ rest) in H.
    rewrite string_append_assoc in H.
    apply (f_equal unescape_head) in H.
    rewrite unescape_head_escape, Hrest in H. discriminate.
  - exfalso.
    change ((JSON.escape_char x +:+ JSON.escape a) +:+ rest = rest) in H.
    rewrite string_append_assoc in H.
    apply (f_equal unescape_head) in H.
    rewrite unescape_head_escape, Hrest in H. discriminate.
  - change ((JSON.escape_char x +:+ JSON.escape a) +:+ rest =
            (JSON.escape_char y +:+ JSON.escape b) +:+ rest) in H.
    rewrite !string_append_assoc in H.
    pose proof (f_equal unescape_head H) as Hh.
    rewrite !unescape_head_escape in Hh. injection Hh as -> Hh.
    f_equal. apply IH. exact Hh.
Qed.

(** X8.  The body of a reply determines the text it relays: if
    [JSON.stringify({ response: a })] and
    [JSON.stringify({ response: b })] are the same text, then [a] and
    [b] are the same string.  Quotes, backslashes and control characters
    in the text are escaped without loss. *)
Theorem response_body_determines_text (a b : string) :
  JSON.stringify (JObject [("response", JString a)]) =
  JSON.stringify (JObject [("response", JString b)]) ->
  a = b.
Proof.
  intros H. rewrite !stringify_response_string in H.
  injection H as H.
  unfold JSON.quote, Str.quoted in H.
  rewrite !string_append_assoc in H.
  apply (escape_append_inj a b (Str.dq +:+ "}")); [reflexivity|exact H].
Qed.

(** X8 on a text with a quote in it. *)
Lemma response_body_determines_text_witness :
  "say " +:+ Str.dq +:+ "hi" +:+ Str.dq = String "s" ("ay " +:+ Str.dq +:+ "hi" +:+ Str.dq).
Proof.
  apply (response_body_determines_text _ _). reflexivity.
Defined.


(** * Properties of the chat client *)

(** ** White space *)

Lemma trim_start_blank (s : string) :
  Str.all_space s = true -> Client.trim_start s = EmptyString.
Proof.
  induction s as [|c s IH]; [reflexivity|]. cbn.
  destruct (Str.is_space c); [exact IH|discriminate].
Qed.

Lemma trim_start_head (s : string) :
  Str.all_space s = false ->
  exists c rest, Client.trim_start s = String c rest /\ Str.is_space c = false.
Proof.
  induction s as [|c s IH]; [discriminate|]. cbn.
  destruct (Str.is_space c) eqn:Hc; [exact IH|eauto].
Qed.

Lemma trim_end_head (c : ascii) (rest : string) :
  Str.is_space c = false -> exists rest', Client.trim_end (String c rest) = String c rest'.
Proof.
  intros Hc. cbn. destruct (Client.trim_end rest); [rewrite Hc|]; eauto.
Qed.

(** [!s.trim()] holds exactly for the strings made of white space. *)
Lemma trim_falsy (s : string) :
  negb (truthy (JString (Client.trim s))) = Str.all_space s.
Proof.
  unfold Client.trim. destruct (Str.all_space s) eqn:Hs.
  - rewrite (trim_start_blank s Hs). reflexivity.
  - destruct (trim_start_head s Hs) as (c & rest & -> & Hc).
    destruct (trim_end_head c rest Hc) as [rest' ->]. reflexivity.
Qed.

(** ** Running the handlers *)

Ltac unfold_client :=
  unfold Client.state_after, Client.trace_of,
         Client.sendMessage, Client.ensure_conversation, Client.exchange,
         Client.createNewConversation, Client.loadMessages,
         Client.loadConversations, Client.handleKeyPress, Client.toast_error,
         Client.finally, Client.try_catch, Client.await, Client.emit,
         Client.lift, Client.throw,
         mbind, Client.C_bind, mret, Client.C_ret.

(** Case analysis on everything a run depends on: what the backend
    answers, what the properties read give, which values are truthy. *)
Ltac split_paths :=
  repeat (cbv beta iota zeta; cbn [negb Client.calls app];
          rewrite ?destructure_eq;
          match goal with
          | |- context [match Client.respond ?b ?h ?c with _ => _ end] =>
              let o := fresh "o" in destruct (Client.respond b h c) as [o|o]
          | |- context [match get_member ?v ?k with _ => _ end] =>
              let o := fresh "o" in destruct (get_member v k) as [o|o]
          | |- context [match Client.optional_member ?v ?k with _ => _ end] =>
              let o := fresh "o" in destruct (Client.optional_member v k) as [o|o]
          | |- context [match Client.map_method ?v ?f with _ => _ end] =>
              let o := fresh "o" in destruct (Client.map_method v f) as [o|o]
          | |- context [truthy ?v] => destruct (truthy v)
          end);
  cbv beta iota zeta; cbn [negb Client.calls app].

(** The same case analysis, keeping what each case assumes. *)
Ltac split_paths_eq :=
  repeat (cbv beta iota zeta; cbn [negb Client.calls app];
          rewrite ?destructure_eq;
          match goal with
          | |- context [match Client.respond ?b ?h ?c with _ => _ end] =>
              let o := fresh "o" in
              destruct (Client.respond b h c) as [o|o] eqn:?
          | |- context [match get_member ?v ?k with _ => _ end] =>
              let o := fresh "o" in destruct (get_member v k) as [o|o] eqn:?
          | |- context [match Client.map_method ?v ?f with _ => _ end] =>
              let o := fresh "o" in destruct (Client.map_method v f) as [o|o] eqn:?
          | |- context [truthy ?v] => destruct (truthy v) eqn:?
          end);
  cbv beta iota zeta; cbn [negb Client.calls app].

(** The same run, along the path that the hypotheses describe. *)
Ltac follow_path :=
  repeat (cbv beta iota zeta; cbn [negb Client.calls app];
          rewrite ?destructure_eq;
          match goal with
          | H : Client.respond _ _ _ = _ |- _ => rewrite H
          | H : get_member _ _ = _ |- _ => rewrite H
          | H : Client.optional_member _ _ = _ |- _ => rewrite H
          | H : Client.map_method _ _ = _ |- _ => rewrite H
          | H : truthy _ = _ |- _ => rewrite H
          end);
  cbv beta iota zeta; cbn [negb Client.calls app].

(** The test that opens [sendMessage]. *)
Lemma sendMessage_guard
    (b : Client.Backend) (s : Client.State) (t : list Client.Effect) :
  Str.all_space (Client.newMessage s) || Client.loading s = true ->
  Client.sendMessage b s t = (inr tt, t).
Proof.
  intros H. unfold Client.sendMessage. rewrite trim_falsy, H. reflexivity.
Qed.

Lemma optional_member_ok (v : JSValue) (key : string) :
  exists x, Client.optional_member v key = inr x.
Proof. destruct v; eexists; reflexivity. Qed.

(** ** Reading rows *)

Lemma set_field_same (key : string) (v : JSValue) (props : list (string * JSValue)) :
  lookup_prop key props = Some v -> Client.set_field key v props = props.
Proof.
  induction props as [|[k x] props IH]; [discriminate|]. cbn.
  destruct (String.eqb k key); [intros [= ->]; reflexivity|].
  intros H. rewrite (IH H). reflexivity.
Qed.

(** [{ ...msg, role: msg.role }] is [msg] for a row that has a role. *)
Lemma retype_kept (row : JSValue) :
  Client.has_role row = true -> Client.retype row = inr row.
Proof.
  destruct row as [| | | | | |props]; try discriminate. cbn.
  intros H. apply bool_decide_eq_true in H. destruct H as [v Hv].
  unfold Client.retype, mbind, Outcome_bind, mret, Outcome_ret. cbn.
  rewrite Hv. cbn. rewrite (set_field_same "role" v props Hv). reflexivity.
Qed.

Lemma map_rows_kept (rows : list JSValue) :
  forallb Client.has_role rows = true ->
  Client.map_method (Client.or_else (JArray rows) (JArray [])) Client.retype = inr rows.
Proof.
  intros H. cbn.
  induction rows as [|row rows IH]; [reflexivity|].
  cbn in H. apply andb_true_iff in H. destruct H as [Hrow Hrows].
  cbn. rewrite (retype_kept row Hrow), (IH Hrows). reflexivity.
Qed.

(** ** What the handlers never do *)

(** X9.  No exception escapes [loadConversations], [loadMessages],
    [createNewConversation] or [sendMessage]: whatever the backend
    answers or rejects with, each of them returns normally. *)
Theorem handlers_catch_everything
    (b : Client.Backend) (s : Client.State) (id : JSValue) (t : list Client.Effect) :
  (exists t', Client.loadConversations b t = (inr tt, t')) /\
  (exists t', Client.loadMessages b id t = (inr tt, t')) /\
  (exists t', Client.createNewConversation b s t = (inr tt, t')) /\
  (exists t', Client.sendMessage b s t = (inr tt, t')).
Proof.
  repeat apply conj.
  - unfold_client. split_paths; eauto.
  - unfold_client. split_paths; eauto.
  - unfold_client. split_paths; eauto.
  - unfold_client. destruct (negb _ || _); [eauto|]. split_paths; eauto.
Qed.

(** X10.  With an input made of white space, or while a message is
    being sent, [sendMessage] does nothing: no backend call, no state
    update, no toast. *)
Theorem blank_or_busy_sends_nothing
    (b : Client.Backend) (s : Client.State) (t : list Client.Effect) :
  Str.all_space (Client.newMessage s) = true \/ Client.loading s = true ->
  Client.sendMessage b s t = (inr tt, t).
Proof.
  intros H. apply sendMessage_guard.
  destruct H as [-> | ->]; [reflexivity|apply orb_true_r].
Qed.

(** X10 on an input of two spaces, and on a busy component. *)
Lemma blank_or_busy_sends_nothing_witness :
  let quiet := Client.mkBackend (fun _ _ => inr JNull) "2024-01-01T00:00:00.000Z" in
  Client.sendMessage quiet (Client.mkState JNull (JArray []) JNull [] "  " false) [] =
    (inr tt, []) /\
  Client.sendMessage quiet (Client.mkState JNull (JArray []) JNull [] "Hello" true) [] =
    (inr tt, []).
Proof.
  cbv zeta. split.
  - refine (blank_or_busy_sends_nothing _ _ [] _). left. reflexivity.
  - refine (blank_or_busy_sends_nothing _ _ [] _). right. reflexivity.
Defined.

(** X11.  [sendMessage] never leaves the loading flag set: started with
    the flag off, it ends with the flag off, whatever the backend does. *)
Theorem loading_cleared (b : Client.Backend) (s : Client.State) :
  Client.loading s = false ->
  Client.loading (Client.state_after s (Client.sendMessage b s)) = false.
Proof.
  intros Hl. unfold_client. rewrite Hl.
  destruct (negb _ || false); [exact Hl|].
  split_paths; cbn; first [reflexivity | exact Hl].
Qed.

(** X11 on a backend that refuses every call. *)
Lemma loading_cleared_witness :
  Client.loading
    (Client.state_after (Client.typing (JString "c1") "Hello")
       (Client.sendMessage Client.refusing (Client.typing (JString "c1") "Hello"))) = false.
Proof.
  exact (loading_cleared Client.refusing (Client.typing (JString "c1") "Hello") eq_refl).
Defined.

(** ** The client and the relay *)

(** A truthy message is answered with status 200 or 500. *)
Lemma truthy_message_status
    (w : World) (req : Request) (t : list Event) (parsed message : JSValue)
    (r : Response) :
  method req <> "OPTIONS" ->
  json req = inr parsed ->
  get_member parsed "message" = inr message ->
  truthy message = true ->
  reply w req t = inr r ->
  status r = 200 \/ status r = 500.
Proof.
  intros Hm Hj Hg Ht Hr. unfold reply in Hr.
  destruct (relay w req t) as [[e|r0] t'] eqn:Hrel.
  - rewrite (handler_catch w req t e t' Hm Hrel) in Hr. injection Hr as <-.
    right. reflexivity.
  - rewrite (handler_return w req t r0 t' Hm Hrel) in Hr. injection Hr as <-.
    destruct (relay_reply_inversion w req t t' r0 Hrel)
      as (parsed' & message' & Hj' & Hg' & [(Hf & _)|(_ & Hs)]).
    + rewrite Hj in Hj'. injection Hj' as <-.
      rewrite Hg in Hg'. injection Hg' as <-. congruence.
    + left. exact Hs.
Qed.

(** X12.  Every call [sendMessage] makes to an edge function is a call
    to [chat-with-ai] with the body [{ message: newMessage }], where the
    typed text is sent as it is and is not made of white space only.
    The relay, on a request whose body parses to that object, does not
    answer 400: the validation error cannot be reached from the
    client. *)
Theorem client_message_passes_validation
    (b : Client.Backend) (s : Client.State) (name : string) (options : JSValue) :
  In (Client.Invoke name options)
     (Client.calls (Client.trace_of (Client.sendMessage b s))) ->
  name = "chat-with-ai" /\
  options = JObject [("body", JObject [("message", JString (Client.newMessage s))])] /\
  Str.all_space (Client.newMessage s) = false /\
  forall (w : World) (req : Request) (t : list Event) (r : Response),
    method req <> "OPTIONS" ->
    json req = inr (JObject [("message", JString (Client.newMessage s))]) ->
    reply w req t = inr r ->
    status r <> 400.
Proof.
  intros H.
  destruct (Str.all_space (Client.newMessage s)) eqn:Hb.
  { unfold Client.trace_of in H.
    rewrite (sendMessage_guard b s []) in H by (rewrite Hb; reflexivity).
    contradiction. }
  assert (Hcall : name = "chat-with-ai" /\
                  options = Client.invoke_options (Client.newMessage s)).
  { revert H. unfold_client. destruct (negb _ || _); [contradiction|].
    split_paths; cbn [snd app Client.calls In]; intros H;
      repeat (destruct H as [H|H]; try discriminate H); try contradiction;
      injection H as <- <-; split; reflexivity. }
  destruct Hcall as [-> ->].
  split; [reflexivity|]. split; [reflexivity|]. split; [reflexivity|].
  intros w req t r Hm Hj Hr.
  assert (Ht : truthy (JString (Client.newMessage s)) = true).
  { destruct (Client.newMessage s); [discriminate Hb|reflexivity]. }
  destruct (truthy_message_status w req t _ (JString (Client.newMessage s)) r
              Hm Hj eq_refl Ht Hr) as [-> | ->]; discriminate.
Qed.

(** X12 on the text [Hello] typed in the conversation [c1]. *)
Lemma client_message_passes_validation_witness :
  Str.all_space "Hello" = false /\
  forall (w : World) (req : Request) (t : list Event) (r : Response),
    method req <> "OPTIONS" ->
    json req = inr (JObject [("message", JString "Hello")]) ->
    reply w req t = inr r ->
    status r <> 400.
Proof.
  refine (proj2 (proj2 (client_message_passes_validation Client.willing
                          (Client.typing (JString "c1") "Hello")
                          "chat-with-ai" (Client.invoke_options "Hello") _))).
  vm_compute. right. left. reflexivity.
Defined.

(** ** The order of the backend calls *)

(** X13.  The backend calls of [sendMessage] are exactly those of
    [expected_calls]: each call is made only if the one before it went
    well, except that a failure to list the conversations is caught
    where it happens and does not stop the run.  So the edge function
    is invoked once at most and only after the user's row was stored
    without error, and the assistant's row is written only after the
    edge function answered with a [response], which is its content. *)
Theorem calls_are_the_expected_ones (b : Client.Backend) (s : Client.State) :
  Client.calls (Client.trace_of (Client.sendMessage b s)) =
  Client.expected_calls b s.
Proof.
  unfold Client.expected_calls.
  unfold_client. rewrite trim_falsy.
  destruct (Str.all_space (Client.newMessage s) || Client.loading s);
    [reflexivity|].
  unfold Client.user_id.
  destruct (optional_member_ok (Client.user s) "id") as [uid ->].
  split_paths_eq;
    unfold Client.exchange_calls, Client.data_field, Client.gives_up,
           Client.list_conversations, Client.list_messages;
    follow_path; reflexivity.
Qed.

(** ** The state after [sendMessage] *)

(** X14.  When no conversation is selected and creating one fails (the
    call is rejected, or its result has no properties, or its [error]
    is truthy), [sendMessage] stops there: it has made that one call,
    shows the toast "Failed to create conversation", and leaves the
    state as it was, the typed text included. *)
Theorem failed_creation_changes_nothing (b : Client.Backend) (s : Client.State) :
  Str.all_space (Client.newMessage s) = false ->
  Client.loading s = false ->
  truthy (Client.currentConversation s) = false ->
  Client.gives_up
    (Client.respond b []
       (Client.insert_conversation
          (Client.conversation_row (Client.user_id s)
             (Client.title_of (Client.newMessage s))))) = true ->
  Client.state_after s (Client.sendMessage b s) = s /\
  Client.calls (Client.trace_of (Client.sendMessage b s)) =
    [Client.insert_conversation
       (Client.conversation_row (Client.user_id s)
          (Client.title_of (Client.newMessage s)))] /\
  In (Client.Toast "Error" "Failed to create conversation" "destructive")
     (Client.trace_of (Client.sendMessage b s)).
Proof.
  intros Hb Hl Hc. unfold Client.gives_up, Client.user_id.
  unfold_client. rewrite trim_falsy, Hb, Hl, Hc.
  destruct (optional_member_ok (Client.user s) "id") as [uid ->].
  cbv beta iota zeta. cbn [negb orb Client.calls app].
  destruct (Client.respond b [] _) as [e|result];
    cbv beta iota zeta; rewrite ?destructure_eq.
  { intros _. destruct s. cbn. repeat split; auto 10. }
  destruct (get_member result "error") as [e|error] eqn:He.
  { intros _.
    assert (Hd : exists e', get_member result "data" = inl e').
    { destruct result; try discriminate He; eexists; reflexivity. }
    destruct Hd as [e' ->]. destruct s. cbn. repeat split; auto 10. }
  intros Ht.
  destruct (get_member result "data") as [e'|data]; rewrite ?Ht;
    destruct s; cbn; repeat split; auto 10.
Qed.

(** X14 on a backend that refuses every call. *)
Lemma failed_creation_changes_nothing_witness :
  Client.state_after (Client.typing JNull "Hello")
    (Client.sendMessage Client.refusing (Client.typing JNull "Hello")) =
  Client.typing JNull "Hello".
Proof.
  exact (proj1 (failed_creation_changes_nothing Client.refusing
                  (Client.typing JNull "Hello") eq_refl eq_refl eq_refl eq_refl)).
Defined.





(** ** Loading rows *)

(** X17.  [loadMessages] asks for the rows of the given conversation in
    ascending order of creation and, when the rows are objects with a
    role, puts them in the state as they came, in the same order. *)
Theorem loadMessages_keeps_rows
    (b : Client.Backend) (id listed : JSValue) (rows : list JSValue)
    (t : list Client.Effect) :
  let query := Client.Query "messages"
                 [Client.Select (Some "*"); Client.Eq "conversation_id" id;
                  Client.Order "created_at" true] in
  Client.respond b (Client.calls t) query = inr listed ->
  get_member listed "data" = inr (JArray rows) ->
  Client.gives_up (inr listed) = false ->
  forallb Client.has_role rows = true ->
  Client.loadMessages b id t =
    (inr tt, t ++ [Client.Request query; Client.SetMessages rows]).
Proof.
  intros query Hq Hd Hg Hrows. subst query.
  unfold Client.gives_up in Hg.
  destruct (get_member listed "error") as [e|error] eqn:He; [discriminate|].
  pose proof (map_rows_kept rows Hrows) as Hmap.
  unfold_client. rewrite Hq. cbv beta iota zeta.
  rewrite !destructure_eq, Hd, He.
  cbv beta iota zeta. rewrite Hg, Hmap. cbv beta iota zeta.
  rewrite <- app_assoc. reflexivity.
Qed.

(** X17 on the sample backend. *)
Lemma loadMessages_keeps_rows_witness :
  Client.trace_of (Client.loadMessages Client.willing (JString "c1")) =
    [Client.Request
       (Client.Query "messages"
          [Client.Select (Some "*"); Client.Eq "conversation_id" (JString "c1");
           Client.Order "created_at" true]);
     Client.SetMessages Client.stored_rows].
Proof.
  exact (f_equal snd
           (loadMessages_keeps_rows Client.willing (JString "c1")
              (Client.result (JArray Client.stored_rows) JNull) Client.stored_rows []
              eq_refl eq_refl eq_refl eq_refl)).
Defined.

(** X18.  A result with no error and no data ([data] null) empties the
    list: [loadMessages] sets the messages to [[]] and
    [loadConversations] sets the conversations to [[]]. *)
Theorem load_without_data
    (b : Client.Backend) (id listed data : JSValue) (t : list Client.Effect) :
  let messages_query :=
    Client.Query "messages"
      [Client.Select (Some "*"); Client.Eq "conversation_id" id;
       Client.Order "created_at" true] in
  let conversations_query :=
    Client.Query "conversations"
      [Client.Select (Some "*"); Client.Order "updated_at" false] in
  get_member listed "data" = inr data ->
  truthy data = false ->
  Client.gives_up (inr listed) = false ->
  (Client.respond b (Client.calls t) messages_query = inr listed ->
   Client.loadMessages b id t =
     (inr tt, t ++ [Client.Request messages_query; Client.SetMessages []])) /\
  (Client.respond b (Client.calls t) conversations_query = inr listed ->
   Client.loadConversations b t =
     (inr tt, t ++ [Client.Request conversations_query;
                    Client.SetConversations (JArray [])])).
Proof.
  intros mq cq Hd Hf Hg. subst mq cq.
  unfold Client.gives_up in Hg.
  destruct (get_member listed "error") as [e|error] eqn:He; [discriminate|].
  split; intros Hq; unfold_client; rewrite Hq; cbv beta iota zeta;
    rewrite !destructure_eq, Hd, He; cbv beta iota zeta; rewrite Hg;
    unfold Client.or_else; rewrite Hf;
    cbn [Client.map_method Client.map_outcome]; cbv beta iota zeta;
    rewrite <- app_assoc; reflexivity.
Qed.

(** X18 on a backend that answers [{ data: null, error: null }]. *)
Lemma load_without_data_witness :
  let empty := Client.mkBackend (fun _ _ => inr (Client.result JNull JNull))
                                "2024-01-01T00:00:00.000Z" in
  Client.trace_of (Client.loadConversations empty) =
    [Client.Request (Client.Query "conversations"
                       [Client.Select (Some "*"); Client.Order "updated_at" false]);
     Client.SetConversations (JArray [])].
Proof.
  exact (f_equal snd
           (proj2 (load_without_data
                     (Client.mkBackend (fun _ _ => inr (Client.result JNull JNull))
                                       "2024-01-01T00:00:00.000Z")
                     JNull (Client.result JNull JNull) JNull []
                     eq_refl eq_refl eq_refl) eq_refl)).
Defined.

(** X19.  When the backend call of [loadMessages] fails, or gives data
    that is not an array, the messages in the state stay as they were
    and the toast "Failed to load messages" is shown. *)
Theorem loadMessages_failure_keeps_rows
    (b : Client.Backend) (s : Client.State) (id : JSValue) :
  let query := Client.Query "messages"
                 [Client.Select (Some "*"); Client.Eq "conversation_id" id;
                  Client.Order "created_at" true] in
  (Client.gives_up (Client.respond b [] query) = true \/
   exists listed data,
     Client.respond b [] query = inr listed /\
     get_member listed "data" = inr data /\
     truthy data = true /\
     (forall rows, data <> JArray rows)) ->
  Client.state_after s (Client.loadMessages b id) = s /\
  In (Client.Toast "Error" "Failed to load messages" "destructive")
     (Client.trace_of (Client.loadMessages b id)).
Proof.
  intros query H. subst query. unfold_client.
  cbv beta iota zeta. cbn [Client.calls].
  destruct H as [H | (listed & data & Hq & Hd & Ht & Hn)].
  - unfold Client.gives_up in H.
    destruct (Client.respond b [] _) as [e|listed];
      cbv beta iota zeta; rewrite ?destructure_eq.
    { destruct s. cbn. repeat split; auto 10. }
    destruct (get_member listed "error") as [e|error] eqn:He.
    { assert (Hd : exists e', get_member listed "data" = inl e').
      { destruct listed; try discriminate He; eexists; reflexivity. }
      destruct Hd as [e' ->]. destruct s. cbn. repeat split; auto 10. }
    destruct (get_member listed "data") as [e'|data]; rewrite ?H;
      destruct s; cbn; repeat split; auto 10.
  - rewrite Hq. cbv beta iota zeta. rewrite !destructure_eq, Hd.
    assert (Hm : exists e, Client.map_method (Client.or_else data (JArray []))
                                             Client.retype = inl e).
    { unfold Client.or_else. rewrite Ht.
      destruct data; try (eexists; reflexivity).
      exfalso. eapply Hn. reflexivity. }
    destruct Hm as [e Hm].
    destruct (get_member listed "error") as [e'|error];
      [|destruct (truthy error)]; rewrite ?Hm;
      destruct s; cbn; repeat split; auto 10.
Qed.

(** X19 on a backend that refuses every call. *)
Lemma loadMessages_failure_keeps_rows_witness :
  Client.state_after (Client.typing (JString "c1") "Hello")
    (Client.loadMessages Client.refusing (JString "c1")) =
  Client.typing (JString "c1") "Hello".
Proof.
  refine (proj1 (loadMessages_failure_keeps_rows Client.refusing
                   (Client.typing (JString "c1") "Hello") (JString "c1") _)).
  left. reflexivity.
Defined.

(** ** A new conversation *)

(** X20.  When the backend creates the conversation, [createNewConversation]
    selects it (the current conversation becomes [data.id]), empties the
    message list and then lists the conversations; the typed text and
    the loading flag are left alone. *)
Theorem new_conversation_selected
    (b : Client.Backend) (s : Client.State) (created data id : JSValue) :
  let create := Client.insert_conversation
                  (Client.conversation_row (Client.user_id s) "New Chat") in
  Client.respond b [] create = inr created ->
  get_member created "data" = inr data ->
  Client.gives_up (inr created) = false ->
  get_member data "id" = inr id ->
  let s' := Client.state_after s (Client.createNewConversation b s) in
  Client.currentConversation s' = id /\
  Client.messages s' = [] /\
  Client.newMessage s' = Client.newMessage s /\
  Client.loading s' = Client.loading s /\
  Client.calls (Client.trace_of (Client.createNewConversation b s)) =
    [create;
     Client.Query "conversations"
       [Client.Select (Some "*"); Client.Order "updated_at" false]].
Proof.
  intros create Hq Hd Hg Hid. subst create. revert Hq.
  unfold Client.gives_up in Hg.
  destruct (get_member created "error") as [e|error] eqn:He; [discriminate|].
  unfold Client.user_id. unfold_client.
  destruct (optional_member_ok (Client.user s) "id") as [uid ->].
  cbv beta iota zeta. cbn [Client.calls]. intros Hq.
  rewrite Hq. cbv beta iota zeta. rewrite !destructure_eq, Hd, He.
  cbv beta iota zeta. rewrite Hg, Hid.
  split_paths; destruct s; cbn; repeat split; reflexivity.
Qed.

(** X20 on the sample backend. *)
Lemma new_conversation_selected_witness :
  Client.currentConversation
    (Client.state_after (Client.typing (JString "c0") "Hello")
       (Client.createNewConversation Client.willing
          (Client.typing (JString "c0") "Hello"))) = JString "c1".
Proof.
  exact (proj1 (new_conversation_selected Client.willing
                  (Client.typing (JString "c0") "Hello")
                  (Client.result (JObject [("id", JString "c1")]) JNull)
                  (JObject [("id", JString "c1")]) (JString "c1")
                  eq_refl eq_refl eq_refl eq_refl)).
Defined.

(** X21.  When creating the conversation fails, [createNewConversation]
    changes nothing in the state, makes no further call and shows the
    toast "Failed to create new conversation". *)
Theorem new_conversation_failure (b : Client.Backend) (s : Client.State) :
  let create := Client.insert_conversation
                  (Client.conversation_row (Client.user_id s) "New Chat") in
  Client.gives_up (Client.respond b [] create) = true ->
  Client.state_after s (Client.createNewConversation b s) = s /\
  Client.calls (Client.trace_of (Client.createNewConversation b s)) = [create] /\
  In (Client.Toast "Error" "Failed to create new conversation" "destructive")
     (Client.trace_of (Client.createNewConversation b s)).
Proof.
  intros create. subst create. unfold Client.gives_up, Client.user_id.
  unfold_client.
  destruct (optional_member_ok (Client.user s) "id") as [uid ->].
  cbv beta iota zeta. cbn [Client.calls].
  destruct (Client.respond b [] _) as [e|created];
    cbv beta iota zeta; rewrite ?destructure_eq.
  { intros _. destruct s. cbn. repeat split; auto 10. }
  destruct (get_member created "error") as [e|error] eqn:He.
  { intros _.
    assert (Hd : exists e', get_member created "data" = inl e').
    { destruct created; try discriminate He; eexists; reflexivity. }
    destruct Hd as [e' ->]. destruct s. cbn. repeat split; auto 10. }
  intros Ht.
  destruct (get_member created "data") as [e'|data]; rewrite ?Ht;
    destruct s; cbn; repeat split; auto 10.
Qed.

(** X21 on a backend that refuses every call. *)
Lemma new_conversation_failure_witness :
  Client.state_after (Client.typing (JString "c0") "Hello")
    (Client.createNewConversation Client.refusing
       (Client.typing (JString "c0") "Hello")) =
  Client.typing (JString "c0") "Hello".
Proof.
  exact (proj1 (new_conversation_failure Client.refusing
                  (Client.typing (JString "c0") "Hello") eq_refl)).
Defined.

(** ** Titles and keys *)

Lemma length_take (n : nat) (s : string) :
  String.length (Str.take n s) = Nat.min n (String.length s).
Proof.
  revert s. induction n as [|n IH]; intros [|c s]; try reflexivity.
  cbn. rewrite IH. reflexivity.
Qed.

Lemma length_append (a b : string) :
  String.length (a +:+ b) = (String.length a + String.length b)%nat.
Proof.
  induction a as [|c a IH]; [reflexivity|].
  change (S (String.length (a +:+ b)) = S (String.length a + String.length b)).
  rewrite IH. reflexivity.
Qed.

(** X22.  The title given to a conversation created by [sendMessage]
    starts with the first 50 code units of the text (the whole text
    when it is shorter) and always ends in three dots, so it is never
    longer than 53 code units. *)
Theorem title_is_bounded (text : string) :
  Client.title_of text = Str.take 50 text +:+ "..." /\
  Str.is_prefix (Str.take 50 text) text = true /\
  String.length (Client.title_of text) =
    (Nat.min 50 (String.length text) + 3)%nat /\
  (String.length (Client.title_of text) <= 53)%nat.
Proof.
  assert (Hlen : String.length (Client.title_of text) =
                 (Nat.min 50 (String.length text) + 3)%nat).
  { unfold Client.title_of. rewrite length_append, length_take. reflexivity. }
  split; [reflexivity|]. split.
  - clear Hlen. generalize 50%nat. intros n. revert text.
    induction n as [|n IH]; intros [|c s]; try reflexivity.
    cbn [Str.take Str.is_prefix]. rewrite IH.
    destruct (Ascii.eqb_spec c c); [reflexivity|contradiction].
  - split; [exact Hlen|]. rewrite Hlen. lia.
Qed.

(** X23.  While the input is blank or a message is being sent, no key
    reaches the backend: Enter without Shift only has its default
    action prevented, and any other key does nothing at all. *)
Theorem key_press_when_idle
    (b : Client.Backend) (s : Client.State) (e : Client.KeyEvent)
    (t : list Client.Effect) :
  Str.all_space (Client.newMessage s) || Client.loading s = true ->
  Client.handleKeyPress b s e t =
    (inr tt,
     if String.eqb (Client.key e) "Enter" && negb (Client.shiftKey e)
     then t ++ [Client.PreventDefault] else t).
Proof.
  intros H. unfold Client.handleKeyPress.
  destruct (String.eqb (Client.key e) "Enter" && negb (Client.shiftKey e));
    [|reflexivity].
  unfold mbind, Client.C_bind, Client.emit.
  apply (sendMessage_guard b s _ H).
Qed.

(** X23 on Enter and on Shift+Enter with an empty input. *)
Lemma key_press_when_idle_witness :
  let s := Client.typing (JString "c1") EmptyString in
  Client.handleKeyPress Client.willing s (Client.mkKey "Enter" false) [] =
    (inr tt, [Client.PreventDefault]) /\
  Client.handleKeyPress Client.willing s (Client.mkKey "Enter" true) [] =
    (inr tt, []).
Proof.
  cbv zeta. split.
  - exact (key_press_when_idle Client.willing
             (Client.typing (JString "c1") EmptyString)
             (Client.mkKey "Enter" false) [] eq_refl).
  - exact (key_press_when_idle Client.willing
             (Client.typing (JString "c1") EmptyString)
             (Client.mkKey "Enter" true) [] eq_refl).
Defined.
